(** * Appointment services of django-hospital: a shallow embedding

    The development follows [src/appointments/services.py].  The Python
    [datetime] values the services compute with, the two Django models they
    read and write, and the services themselves are translated function by
    function; exceptions are threaded through a small error monad. *)

From Stdlib Require Import ZArith Lia.
From stdpp Require Import base option list gmap strings.

Local Open Scope Z_scope.

(** ** Exceptions *)

(** The exceptions the modelled code can raise.  [IntegrityError] is the
    database's, and carries the text the database words it with. *)
Inductive exn : Type :=
  | TypeError
  | ValueError
  | KeyError
  | AttributeError
  | IntegrityError (message : string).

(** [str(e)]: the text of an exception.  The exceptions of the datetime
    operations carry no text in this model. *)
Definition exn_text (e : exn) : string :=
  match e with
  | IntegrityError message => message
  | _ => ""%string
  end.

(** A Python call either returns a value or raises. *)
Inductive result (A : Type) : Type :=
  | Ok (a : A)
  | Raise (e : exn).
Arguments Ok {A} a.
Arguments Raise {A} e.

#[global] Instance result_ret : MRet result := λ A a, Ok a.
#[global] Instance result_bind : MBind result := λ A B f m,
  match m with
  | Ok a => f a
  | Raise e => Raise e
  end.

(** [d[k]] on a dict: [KeyError] when the key is missing. *)
Definition getitem {V : Type} (d : gmap Z V) (k : Z) : result V :=
  match d !! k with
  | Some v => Ok v
  | None => Raise KeyError
  end.

(** ** [datetime.date], [datetime.time], [datetime.timedelta]

    A date is kept as its proleptic Gregorian ordinal ([date.toordinal()]),
    the representation CPython's own arithmetic and [weekday()] go through.
    The [MINYEAR]/[MAXYEAR] range check of date arithmetic ([OverflowError]
    past year 9999) is outside the model. *)
Record date : Type := Date { toordinal : Z }.

(** [date.weekday()]: Monday is 0, Sunday is 6. *)
Definition weekday (d : date) : Z := (toordinal d + 6) mod 7.

(** A naive wall-clock time, as a [TimeField] holds it and as
    [datetime.time()] returns it. *)
Record time : Type := MkTime {
  hour : Z;
  minute : Z;
  second : Z;
  microsecond : Z
}.

(** The field ranges every [datetime.time] object satisfies. *)
Definition valid_time (t : time) : Prop :=
  0 <= hour t < 24 /\ 0 <= minute t < 60 /\ 0 <= second t < 60 /\
  0 <= microsecond t < 1000000.

(** Tuple comparison: the first component that differs decides. *)
Definition lexico (c1 c2 : comparison) : comparison :=
  match c1 with
  | Eq => c2
  | _ => c1
  end.

(** [time._cmp] on naive times compares
    [(hour, minute, second, microsecond)]. *)
Definition time_cmp (a b : time) : comparison :=
  lexico (hour a ?= hour b)
    (lexico (minute a ?= minute b)
       (lexico (second a ?= second b) (microsecond a ?= microsecond b))).

Definition time_lt (a b : time) : bool :=
  match time_cmp a b with Lt => true | _ => false end.
Definition time_gt (a b : time) : bool :=
  match time_cmp a b with Gt => true | _ => false end.
Definition time_le (a b : time) : bool :=
  match time_cmp a b with Gt => false | _ => true end.

(** A [timedelta] is stored normalised: [0 <= seconds < 86400] and
    [0 <= microseconds < 1000000]. *)
Record timedelta : Type := Timedelta {
  days : Z;
  seconds : Z;
  microseconds : Z
}.

(** The normalisation of [timedelta.__new__]. *)
Definition mk_timedelta (d s us : Z) : timedelta :=
  let s' := s + us / 1000000 in
  {| days := d + s' / 86400;
     seconds := s' mod 86400;
     microseconds := us mod 1000000 |}.

(** [timedelta(minutes=m)] and [timedelta(days=d)]. *)
Definition timedelta_minutes (m : Z) : timedelta := mk_timedelta 0 (m * 60) 0.
Definition timedelta_days (d : Z) : timedelta := mk_timedelta d 0 0.

Definition timedelta_add (a b : timedelta) : timedelta :=
  mk_timedelta (days a + days b) (seconds a + seconds b)
    (microseconds a + microseconds b).

(** [date + timedelta]: only the [days] of the delta count. *)
Definition date_add (d : date) (td : timedelta) : date :=
  Date (toordinal d + days td).

(** ** Time zones

    [tzinfo] is an abstract base class; a type of zones implements it by
    giving the UTC offset (in microseconds) at a wall-clock date and time.
    Equality of zones stands for the identity test [mytz is ottz] of
    [datetime._cmp].  [get_current_timezone] is Django's current time zone,
    which [make_aware] falls back to. *)
Class Timezones (tz : Type) : Type := {
  tz_eq_dec :: EqDecision tz;
  utcoffset : tz -> date -> time -> Z;
  get_current_timezone : tz
}.

(** ** [datetime.datetime] *)

(** A datetime is naive when [tzinfo] is [None], aware otherwise. *)
Record datetime (tz : Type) : Type := Datetime {
  dt_date : date;
  dt_time : time;
  tzinfo : option tz
}.
Arguments Datetime {tz} _ _ _.
Arguments dt_date {tz} _.
Arguments dt_time {tz} _.
Arguments tzinfo {tz} _.

(** [datetime.combine(date, time)] with a naive [time]: the result is
    naive.  A [None] in place of the time is a [TypeError]. *)
Definition combine {tz : Type} (d : date) (t : option time)
    : result (datetime tz) :=
  match t with
  | Some t => Ok (Datetime d t None)
  | None => Raise TypeError
  end.

(** [datetime.__add__]: the fields are turned into a timedelta counted from
    ordinal 0, the delta is added, and the sum is split again with
    [divmod]; [tzinfo] is carried over unchanged. *)
Definition datetime_add {tz : Type} (dt : datetime tz) (other : timedelta)
    : datetime tz :=
  let t := dt_time dt in
  let delta :=
    timedelta_add
      (mk_timedelta (toordinal (dt_date dt))
         (hour t * 3600 + minute t * 60 + second t) (microsecond t))
      other in
  let hour' := seconds delta / 3600 in
  let rem := seconds delta mod 3600 in
  let minute' := rem / 60 in
  let second' := rem mod 60 in
  Datetime (Date (days delta))
    (MkTime hour' minute' second' (microseconds delta)) (tzinfo dt).

(** Comparison of the wall-clock fields (the [base_compare] branch of
    [datetime._cmp]); year, month and day compare as the ordinal does. *)
Definition base_cmp {tz : Type} (a b : datetime tz) : comparison :=
  lexico (toordinal (dt_date a) ?= toordinal (dt_date b))
    (time_cmp (dt_time a) (dt_time b)).

(** Microseconds from ordinal 0 to the wall-clock reading. *)
Definition wall_us (d : date) (t : time) : Z :=
  ((toordinal d * 86400 + hour t * 3600 + minute t * 60 + second t) * 1000000)
  + microsecond t.

(** [datetime._cmp]: the same zone object, or equal offsets, compares the
    wall-clock fields; different offsets compare the UTC instants; naive
    against aware is a [TypeError]. *)
Definition datetime_cmp `{Timezones tz} (a b : datetime tz)
    : result comparison :=
  match tzinfo a, tzinfo b with
  | None, None => Ok (base_cmp a b)
  | Some za, Some zb =>
      if decide (za = zb) then Ok (base_cmp a b)
      else
        let myoff := utcoffset za (dt_date a) (dt_time a) in
        let otoff := utcoffset zb (dt_date b) (dt_time b) in
        if myoff =? otoff then Ok (base_cmp a b)
        else Ok (wall_us (dt_date a) (dt_time a) - myoff
                 ?= wall_us (dt_date b) (dt_time b) - otoff)
  | _, _ => Raise TypeError
  end.

(** [a > b] on datetimes. *)
Definition datetime_gt `{Timezones tz} (a b : datetime tz) : result bool :=
  c ← datetime_cmp a b;
  mret (match c with Gt => true | _ => false end).

(** [django.utils.timezone.is_aware]. *)
Definition is_aware {tz : Type} (value : datetime tz) : bool :=
  match tzinfo value with
  | Some _ => true
  | None => false
  end.

(** [django.utils.timezone.make_aware(value, timezone)]: a missing zone is
    the current one, an aware value is a [ValueError], otherwise
    [value.replace(tzinfo=timezone)]. *)
Definition make_aware `{Timezones tz} (value : datetime tz)
    (timezone : option tz) : result (datetime tz) :=
  let timezone := default get_current_timezone timezone in
  if is_aware value then Raise ValueError
  else Ok (Datetime (dt_date value) (dt_time value) (Some timezone)).

(** ** The Django models *)

(** The seven weekday identifiers a [WorkingHour] row is indexed by. *)
Inductive DayName : Type :=
  | Monday | Tuesday | Wednesday | Thursday | Friday | Saturday | Sunday.

#[global] Instance DayName_eq_dec : EqDecision DayName.
Proof. solve_decision. Defined.

(** Modelled from the spec: [django_hospital.utils.weekday_mapping] is not
    under src/.  The spec's WeekdayCalendar is a total, injective mapping
    from the integer day-of-week ([date.weekday()], Monday is 0) to the
    weekday identifier; the code indexes it as a dict. *)
Definition weekday_mapping : gmap Z DayName :=
  list_to_map
    [(0, Monday); (1, Tuesday); (2, Wednesday); (3, Thursday);
     (4, Friday); (5, Saturday); (6, Sunday)].

(** [doctors.models.WorkingHour], with the fields the services read. *)
Module WorkingHour.
Record t : Type := Build {
  doctor_id : Z;
  day_of_week : DayName;
  start_time : time;
  end_time : time;
  break_start_time : option time;
  break_end_time : option time
}.
End WorkingHour.

(** [appointments.models.AppointmentRequest], with the fields the services
    write.  [request_expiration_datetime] is optional because the service
    can hand [None] to the constructor. *)
Module AppointmentRequest.
Record t (tz : Type) : Type := Build {
  patient_id : Z;
  doctor_id : Z;
  preferred_datetime : datetime tz;
  request_expiration_datetime : option (datetime tz);
  status : string
}.
Arguments Build {tz} _ _ _ _ _.
Arguments patient_id {tz} _.
Arguments doctor_id {tz} _.
Arguments preferred_datetime {tz} _.
Arguments request_expiration_datetime {tz} _.
Arguments status {tz} _.
End AppointmentRequest.

(** Modelled from the spec: the model declaration of [AppointmentRequest]
    is not under src/; a new request starts in the state [pending] of the
    spec's status machine. *)
Definition default_status : string := "pending"%string.

(** The two tables.  Working hours are read in primary-key order (what
    [first()] relies on); requests are keyed by primary key, and [next_id]
    is the key the next insert gets. *)
Record Database (tz : Type) : Type := MkDatabase {
  working_hours : list WorkingHour.t;
  appointment_requests : gmap Z (AppointmentRequest.t tz);
  next_id : Z
}.
Arguments MkDatabase {tz} _ _ _.
Arguments working_hours {tz} _.
Arguments appointment_requests {tz} _.
Arguments next_id {tz} _.

(** [queryset.filter(doctor_id=...)], [queryset.filter(day_of_week=...)]
    and [queryset.first()]. *)
Definition filter_doctor_id (doctor_id : Z) (qs : list WorkingHour.t)
    : list WorkingHour.t :=
  filter (λ wh, WorkingHour.doctor_id wh = doctor_id) qs.

Definition filter_day_of_week (day : DayName) (qs : list WorkingHour.t)
    : list WorkingHour.t :=
  filter (λ wh, WorkingHour.day_of_week wh = day) qs.

Definition first {A : Type} (qs : list A) : option A := head qs.

(** Modelled from the spec: appointments/models.py is not under src/, and
    with it the constraint of the expiration column.  The spec's
    [expiresAt] is an instant, and a [DateTimeField] refuses [NULL] unless
    it is declared otherwise; the wording of the refusal is the database's
    own, for which this text stands. *)
Definition null_expiration_text : string :=
  "NOT NULL constraint failed: request_expiration_datetime"%string.

(** Modelled from the spec: [instance.save()] of a new row.  A row without
    expiration is refused with an [IntegrityError] (see
    [null_expiration_text]); any other row is inserted under the next
    key. *)
Definition save_new {tz : Type} (row : AppointmentRequest.t tz)
    (db : Database tz) : result (Z * Database tz) :=
  match AppointmentRequest.request_expiration_datetime row with
  | None => Raise (IntegrityError null_expiration_text)
  | Some _ =>
      Ok (next_id db,
          MkDatabase (working_hours db)
            (<[next_id db := row]> (appointment_requests db))
            (next_id db + 1))
  end.

(** [instance.save()] of a row loaded under [pk]. *)

Definition save_existing {tz : Type} (pk : Z) (row : AppointmentRequest.t tz)
    (db : Database tz) : Database tz :=
  MkDatabase (working_hours db) (<[pk := row]> (appointment_requests db))
    (next_id db).

(** What a service returns: an [{"error": ...}] dict or the serialised
    request. *)
Inductive response (tz : Type) : Type :=
  | ErrorDict (error : string)
  | SerializerData (id : Z) (instance : AppointmentRequest.t tz).
Arguments ErrorDict {tz} error.
Arguments SerializerData {tz} id instance.

(** ** The services *)

(** [is_within_working_hours]:
    [working_hour.start_time <= current_time <= working_hour.end_time]. *)
Definition is_within_working_hours (current_time : time)
    (working_hour : WorkingHour.t) : bool :=
  time_le (WorkingHour.start_time working_hour) current_time
  && time_le current_time (WorkingHour.end_time working_hour).

(** [is_during_break].  A [time] object is always true in a condition
    (Python 3.5 and later), so the guard tests the two fields against
    [None]. *)
Definition is_during_break (current_time : time)
    (working_hour : WorkingHour.t) : bool :=
  match WorkingHour.break_start_time working_hour,
        WorkingHour.break_end_time working_hour with
  | Some break_start_time, Some break_end_time =>
      time_le break_start_time current_time
      && time_le current_time break_end_time
  | _, _ => false
  end.

(** The body of the loop [for days_ahead in range(7)] of
    [find_next_working_period_start], over the offsets still to try. *)
Fixpoint find_next_loop `{Timezones tz} (request_datetime : datetime tz)
    (doctor_schedule : list WorkingHour.t) (current_day_index : Z)
    (range : list Z) : result (option (datetime tz)) :=
  match range with
  | [] => Ok None
  | days_ahead :: range' =>
      let next_day_index := (current_day_index + days_ahead) mod 7 in
      next_day_name ← getitem weekday_mapping next_day_index;
      let next_working_hour :=
        first (filter_day_of_week next_day_name doctor_schedule) in
      match next_working_hour with
      | Some next_working_hour =>
          let next_working_day :=
            date_add (dt_date request_datetime) (timedelta_days days_ahead) in
          naive_next_start_time ←
            combine next_working_day
              (Some (WorkingHour.start_time next_working_hour));
          next_start_time ←
            make_aware naive_next_start_time (tzinfo request_datetime);
          later ← datetime_gt next_start_time request_datetime;
          if later : bool
          then Ok (Some (datetime_add next_start_time (timedelta_minutes 15)))
          else find_next_loop request_datetime doctor_schedule
                 current_day_index range'
      | None =>
          find_next_loop request_datetime doctor_schedule
            current_day_index range'
      end
  end.

(** [find_next_working_period_start]. *)
Definition find_next_working_period_start `{Timezones tz}
    (request_datetime : datetime tz) (doctor_schedule : list WorkingHour.t)
    : result (option (datetime tz)) :=
  let current_day_index := weekday (dt_date request_datetime) in
  find_next_loop request_datetime doctor_schedule current_day_index
    (seqZ 0 7).

(** [set_request_expiration_datetime]. *)
Definition set_request_expiration_datetime `{Timezones tz}
    (request_datetime : datetime tz) (doctor_id : Z)
    (objects : list WorkingHour.t) : result (option (datetime tz)) :=
  let doctor_schedule := filter_doctor_id doctor_id objects in
  let current_time := dt_time request_datetime in
  let day_of_week := weekday (dt_date request_datetime) in
  day_name ← getitem weekday_mapping day_of_week;
  let working_hour_today :=
    first (filter_day_of_week day_name doctor_schedule) in
  match working_hour_today with
  | Some working_hour_today =>
      if is_within_working_hours current_time working_hour_today then
        if is_during_break current_time working_hour_today then
          break_end_datetime ←
            combine (dt_date request_datetime)
              (WorkingHour.break_end_time working_hour_today);
          Ok (Some (datetime_add break_end_datetime (timedelta_minutes 15)))
        else
          Ok (Some (datetime_add request_datetime (timedelta_minutes 20)))
      else find_next_working_period_start request_datetime doctor_schedule
  | None => find_next_working_period_start request_datetime doctor_schedule
  end.

(** [create_appointment_request_service].  [request_datetime] defaults to
    [None] in the source, on which [request_datetime.time()] raises; an
    exception leaves the atomic block without a store, that is, rolled
    back.  The last step is the [try] block of the source: building,
    saving and serialising the request, with the three handlers that turn
    an [IntegrityError], a [ValueError] and any other exception of that
    block into an error dict, the store being left as it was. *)
Definition create_appointment_request_service `{Timezones tz}
    (patient_id doctor_id : Z) (preferred_datetime : datetime tz)
    (request_datetime : option (datetime tz)) (db : Database tz)
    : result (response tz * Database tz) :=
  preferred_datetime_day_of_week ←
    getitem weekday_mapping (weekday (dt_date preferred_datetime));
  let preferred_time_for_day := dt_time preferred_datetime in
  let doctor_working_hour :=
    first
      (filter
         (λ wh, WorkingHour.doctor_id wh = doctor_id
                ∧ WorkingHour.day_of_week wh = preferred_datetime_day_of_week)
         (working_hours db)) in
  match doctor_working_hour with
  | None => Ok (ErrorDict "Doctor is not available at that day", db)
  | Some doctor_working_hour =>
      if time_lt preferred_time_for_day
           (WorkingHour.start_time doctor_working_hour)
         || time_gt preferred_time_for_day
              (WorkingHour.end_time doctor_working_hour)
      then
        Ok (ErrorDict
              "It's not operation hours. Can't make appointment for this time",
            db)
      else if
        match WorkingHour.break_start_time doctor_working_hour,
              WorkingHour.break_end_time doctor_working_hour with
        | Some break_start_time, Some break_end_time =>
            time_le break_start_time preferred_time_for_day
            && time_le preferred_time_for_day break_end_time
        | _, _ => false
        end
      then
        Ok (ErrorDict
              "Doctor is having lunch break, can't make appointment for this time",
            db)
      else
        request_datetime ←
          match request_datetime with
          | Some request_datetime => Ok request_datetime
          | None => Raise AttributeError
          end;
        request_expiration_datetime ←
          set_request_expiration_datetime request_datetime doctor_id
            (working_hours db);
        let appointment_request :=
          AppointmentRequest.Build patient_id doctor_id preferred_datetime
            request_expiration_datetime default_status in
        match save_new appointment_request db with
        | Ok (pk, db') => Ok (SerializerData pk appointment_request, db')
        | Raise (IntegrityError e) =>
            Ok (ErrorDict
                  (String.append "Database error: " (exn_text (IntegrityError e))),
                db)
        | Raise ValueError =>
            Ok (ErrorDict (String.append "Value error: " (exn_text ValueError)),
                db)
        | Raise e =>
            Ok (ErrorDict
                  (String.append "An unexpected error occurred: " (exn_text e)),
                db)
        end
  end.

(** [update_appointment_request_status].  [objects.get] raises
    [ObjectDoesNotExist] for an unknown key, which the service turns into
    an error dict; comparing against a stored [None] expiration is a
    [TypeError], which it does not catch. *)
Definition update_appointment_request_status `{Timezones tz}
    (appointment_request_id : Z) (new_status : string)
    (request_datetime : datetime tz) (db : Database tz)
    : result (response tz * Database tz) :=
  match appointment_requests db !! appointment_request_id with
  | None => Ok (ErrorDict "Appointment request not found", db)
  | Some appointment_request =>
      appoinment_request_expiration ←
        match AppointmentRequest.request_expiration_datetime
                appointment_request with
        | Some expiration => Ok expiration
        | None => Raise TypeError
        end;
      expired ← datetime_gt request_datetime appoinment_request_expiration;
      if expired : bool then Ok (ErrorDict "Appointment request expired", db)
      else if bool_decide
                (AppointmentRequest.status appointment_request
                 ≠ "accepted"%string)
      then
        let appointment_request :=
          AppointmentRequest.Build
            (AppointmentRequest.patient_id appointment_request)
            (AppointmentRequest.doctor_id appointment_request)
            (AppointmentRequest.preferred_datetime appointment_request)
            (AppointmentRequest.request_expiration_datetime
               appointment_request)
            new_status in
        Ok (SerializerData appointment_request_id appointment_request,
            save_existing appointment_request_id appointment_request db)
      else Ok (ErrorDict "Appointment request already accepted", db)
  end.

(** [get_appointment_request_list]: the requests of the doctor whose status
    is not [accepted], serialised.  The rows are kept under their primary
    keys; the order of the serialised list is the database's (the queryset
    has no [order_by]) and is not modelled.  The query raises nothing in
    the store, so the [except] branch is not reached. *)
Definition get_appointment_request_list {tz : Type} (doctor_id : Z)
    (db : Database tz) : gmap Z (AppointmentRequest.t tz) :=
  filter
    (λ kv, AppointmentRequest.doctor_id kv.2 = doctor_id
           ∧ AppointmentRequest.status kv.2 ≠ "accepted"%string)
    (appointment_requests db).

(** ** Notions of the specification *)

(** The record, if any, the services find in a doctor's schedule for the
    weekday with index [day_index]. *)
Definition schedule_lookup (day_index : Z)
    (doctor_schedule : list WorkingHour.t) : option WorkingHour.t :=
  day_name ← weekday_mapping !! day_index;
  first (filter_day_of_week day_name doctor_schedule).

(** The spec's WorkingHourLookup: the same, from the whole table. *)
Definition working_hour_lookup (doctor_id : Z) (day_index : Z)
    (objects : list WorkingHour.t) : option WorkingHour.t :=
  schedule_lookup day_index (filter_doctor_id doctor_id objects).

(** The spec's boundary policy: [t] lies in the closed interval from [lo]
    to [hi]. *)
Definition in_closed_interval (lo hi t : time) : Prop :=
  time_le lo t = true ∧ time_le t hi = true.

(** [t] lies in the break of the record; a record has a break when both
    break fields are set. *)
Definition in_break (t : time) (wh : WorkingHour.t) : Prop :=
  ∃ bs be,
    WorkingHour.break_start_time wh = Some bs
    ∧ WorkingHour.break_end_time wh = Some be
    ∧ in_closed_interval bs be t.

(** The spec's three rejection conditions of request creation: no record
    on the preferred weekday, a preferred time outside the working hours,
    or a preferred time inside the break. *)
Definition creation_rejected {tz : Type} (doctor_id : Z)
    (preferred_datetime : datetime tz) (objects : list WorkingHour.t)
    : Prop :=
  match working_hour_lookup doctor_id
          (weekday (dt_date preferred_datetime)) objects with
  | None => True
  | Some wh =>
      ¬ in_closed_interval (WorkingHour.start_time wh)
          (WorkingHour.end_time wh) (dt_time preferred_datetime)
      ∨ in_break (dt_time preferred_datetime) wh
  end.

(** The candidate start of the next-window search at a day offset: the
    reference date advanced by [offset], at the record's start time, in
    the zone [z]. *)
Definition candidate_start {tz : Type} (request_datetime : datetime tz)
    (offset : Z) (wh : WorkingHour.t) (z : tz) : datetime tz :=
  Datetime (Date (toordinal (dt_date request_datetime) + offset))
    (WorkingHour.start_time wh) (Some z).

(** The primary keys in use are below the key the next insert gets, as
    with a key sequence that only grows. *)
Definition store_wf {tz : Type} (db : Database tz) : Prop :=
  ∀ k, is_Some (appointment_requests db !! k) -> k < next_id db.

(** The time fields of a record are [datetime.time] values. *)
Definition valid_working_hour (wh : WorkingHour.t) : Prop :=
  valid_time (WorkingHour.start_time wh)
  ∧ ∀ be, WorkingHour.break_end_time wh = Some be -> valid_time be.

(** ** Concrete data for the scenarios *)

(** Fixed-offset zones, as [datetime.timezone(timedelta(minutes=m))]. *)
Record FixedOffset : Type := MkFixedOffset { offset_minutes : Z }.

#[global] Instance FixedOffset_eq_dec : EqDecision FixedOffset.
Proof. solve_decision. Defined.

Definition UTC : FixedOffset := MkFixedOffset 0.
Definition KST : FixedOffset := MkFixedOffset 540.

#[global] Instance FixedOffset_timezones : Timezones FixedOffset := {
  utcoffset z _ _ := offset_minutes z * 60000000;
  get_current_timezone := UTC
}.

(** Wall-clock times to the minute. *)
Definition hm (h m : Z) : time := MkTime h m 0 0.

(** Monday 2024-01-01 has ordinal 738886; the days after it follow. *)
Definition monday : date := Date 738886.
Definition wednesday : date := Date 738888.
Definition next_monday : date := Date 738893.

(** An aware instant in the zone UTC+9. *)
Definition at_kst (d : date) (t : time) : datetime FixedOffset :=
  Datetime d t (Some KST).

(** Doctor 1 on Mondays, 09:00 to 17:00, without and with a break from
    12:00 to 13:00. *)
Definition monday_plain : WorkingHour.t :=
  WorkingHour.Build 1 Monday (hm 9 0) (hm 17 0) None None.
Definition monday_with_break : WorkingHour.t :=
  WorkingHour.Build 1 Monday (hm 9 0) (hm 17 0)
    (Some (hm 12 0)) (Some (hm 13 0)).
Definition wednesday_plain : WorkingHour.t :=
  WorkingHour.Build 1 Wednesday (hm 9 0) (hm 17 0) None None.

(** A store holding the given working hours and no request yet. *)
Definition store_of (hours : list WorkingHour.t) : Database FixedOffset :=
  MkDatabase hours ∅ 1.

(** A request of patient 7 to doctor 1 for the Monday after, 10:00, made
    on Monday at 10:00 and hence valid until 10:20; pending, and accepted. *)
Definition pending_request : AppointmentRequest.t FixedOffset :=
  AppointmentRequest.Build 7 1 (at_kst next_monday (hm 10 0))
    (Some (at_kst monday (hm 10 20))) default_status.
Definition accepted_request : AppointmentRequest.t FixedOffset :=
  AppointmentRequest.Build 7 1 (at_kst next_monday (hm 10 0))
    (Some (at_kst monday (hm 10 20))) "accepted".

(** A store holding one request under the key 1. *)
Definition store_with (r : AppointmentRequest.t FixedOffset)
    : Database FixedOffset :=
  MkDatabase [monday_plain] (<[1 := r]> ∅) 2.

(** A naive reading of the clock, without zone. *)
Definition naive_at (d : date) (t : time) : datetime FixedOffset :=
  Datetime d t None.

(** A second Monday record of doctor 1, with later hours, and a record of
    doctor 1 on Sundays that starts shortly before midnight. *)
Definition monday_late : WorkingHour.t :=
  WorkingHour.Build 1 Monday (hm 19 0) (hm 22 0) None None.
Definition sunday_night : WorkingHour.t :=
  WorkingHour.Build 1 Sunday (hm 23 50) (hm 23 59) None None.

(** * Properties of the embedding *)

(** ** Weekdays *)

Lemma weekday_bounds d : 0 <= weekday d < 7.
Proof. unfold weekday. apply Z.mod_pos_bound. lia. Qed.

Lemma weekday_mapping_total i :
  0 <= i < 7 -> ∃ n, weekday_mapping !! i = Some n.
Proof.
  intros Hi.
  assert (i = 0 ∨ i = 1 ∨ i = 2 ∨ i = 3 ∨ i = 4 ∨ i = 5 ∨ i = 6) as Hc by lia.
  repeat (destruct Hc as [-> | Hc]; [eexists; vm_compute; reflexivity |]).
  subst i. eexists; vm_compute; reflexivity.
Qed.

Lemma lexico_Gt c1 c2 : lexico c1 c2 = Gt ↔ c1 = Gt ∨ (c1 = Eq ∧ c2 = Gt).
Proof. destruct c1; simpl; intuition congruence. Qed.

Lemma time_cmp_Gt a b :
  time_cmp a b = Gt ↔
  hour b < hour a
  ∨ (hour a = hour b
     ∧ (minute b < minute a
        ∨ (minute a = minute b
           ∧ (second b < second a
              ∨ (second a = second b ∧ microsecond b < microsecond a))))).
Proof.
  unfold time_cmp.
  rewrite !lexico_Gt, !Z.compare_gt_iff, !Z.compare_eq_iff. tauto.
Qed.

Lemma base_cmp_Gt {tz} (a b : datetime tz) :
  base_cmp a b = Gt ↔
  toordinal (dt_date b) < toordinal (dt_date a)
  ∨ (toordinal (dt_date a) = toordinal (dt_date b)
     ∧ time_cmp (dt_time a) (dt_time b) = Gt).
Proof.
  unfold base_cmp. rewrite lexico_Gt, Z.compare_gt_iff, Z.compare_eq_iff.
  tauto.
Qed.

Lemma datetime_add_minutes_later {tz} (c : datetime tz) (m : Z) :
  valid_time (dt_time c) -> 0 < m ->
  base_cmp (datetime_add c (timedelta_minutes m)) c = Gt.
Proof.
  intros (Hh & Hm & Hs & Hu) Hpos.
  rewrite base_cmp_Gt, time_cmp_Gt.
  unfold datetime_add, timedelta_add, timedelta_minutes, mk_timedelta.
  cbn [dt_date dt_time toordinal hour minute second microsecond days seconds
       microseconds].
  Z.div_mod_to_equations; lia.
Qed.

Lemma base_cmp_Gt_trans {tz} (a b c : datetime tz) :
  base_cmp a b = Gt -> base_cmp b c = Gt -> base_cmp a c = Gt.
Proof. rewrite !base_cmp_Gt, !time_cmp_Gt. lia. Qed.

Lemma datetime_add_tzinfo {tz} (dt : datetime tz) (other : timedelta) :
  tzinfo (datetime_add dt other) = tzinfo dt.
Proof. reflexivity. Qed.

Lemma date_add_days (d : date) (n : Z) :
  date_add d (timedelta_days n) = Date (toordinal d + n).
Proof.
  unfold date_add, timedelta_days, mk_timedelta. cbn [days].
  f_equal. change ((0 + 0 / 1000000) / 86400) with 0. lia.
Qed.

Section services.
Context `{Timezones tz}.
Implicit Types (rd : datetime tz) (z : tz) (wh : WorkingHour.t).

(** Two datetimes of one zone compare by their wall-clock fields. *)
Lemma datetime_gt_same_zone (a b : datetime tz) z :
  tzinfo a = Some z -> tzinfo b = Some z ->
  datetime_gt a b = Ok (match base_cmp a b with Gt => true | _ => false end).
Proof.
  intros Ha Hb. unfold datetime_gt, datetime_cmp. rewrite Ha, Hb.
  rewrite decide_True by done. reflexivity.
Qed.

Lemma datetime_gt_same_zone_true (a b : datetime tz) z :
  tzinfo a = Some z -> tzinfo b = Some z ->
  datetime_gt a b = Ok true ↔ base_cmp a b = Gt.
Proof.
  intros Ha Hb. rewrite (datetime_gt_same_zone a b z Ha Hb).
  destruct (base_cmp a b); split; congruence.
Qed.

(** One turn of the loop of [find_next_working_period_start] for an aware
    reference: the day index is always a key of [weekday_mapping]. *)
Lemma find_next_loop_cons rd z sched wd d range :
  tzinfo rd = Some z ->
  find_next_loop rd sched wd (d :: range) =
  match schedule_lookup ((wd + d) mod 7) sched with
  | None => find_next_loop rd sched wd range
  | Some wh =>
      match base_cmp (candidate_start rd d wh z) rd with
      | Gt =>
          Ok (Some (datetime_add (candidate_start rd d wh z)
                      (timedelta_minutes 15)))
      | _ => find_next_loop rd sched wd range
      end
  end.
Proof.
  intros Hz. cbn [find_next_loop]. unfold getitem, schedule_lookup.
  destruct (weekday_mapping_total ((wd + d) mod 7)) as [name ->].
  { apply Z.mod_pos_bound. lia. }
  cbn [mbind result_bind option_bind].
  destruct (first (filter_day_of_week name sched)) as [wh|]; [|done].
  cbn [combine mbind result_bind]. unfold make_aware.
  cbn [is_aware tzinfo mbind result_bind dt_date dt_time].
  rewrite Hz. change (default get_current_timezone (Some z)) with z.
  rewrite date_add_days.
  fold (candidate_start rd d wh z).
  rewrite (datetime_gt_same_zone _ rd z) by done.
  cbn [mbind result_bind].
  by destruct (base_cmp (candidate_start rd d wh z) rd).
Qed.

(** A naive reference never gets a start back: the first record found
    makes the comparison of an aware candidate with it a [TypeError]. *)
Lemma find_next_loop_naive rd sched wd range r :
  tzinfo rd = None -> find_next_loop rd sched wd range ≠ Ok (Some r).
Proof.
  intros Hz. induction range as [|d range IH]; [done|].
  cbn [find_next_loop].
  destruct (getitem weekday_mapping ((wd + d) mod 7)) as [name|]; [|done].
  cbn [mbind result_bind].
  destruct (first (filter_day_of_week name sched)) as [wh|]; [|done].
  cbn [combine mbind result_bind]. unfold make_aware.
  cbn [is_aware tzinfo mbind result_bind].
  unfold datetime_gt, datetime_cmp. cbn [tzinfo]. by rewrite Hz.
Qed.

(** Offsets whose record, if any, gives no later candidate are passed
    over. *)
Lemma find_next_loop_skip rd z sched wd pre range :
  tzinfo rd = Some z ->
  (∀ d wh, d ∈ pre -> schedule_lookup ((wd + d) mod 7) sched = Some wh ->
           base_cmp (candidate_start rd d wh z) rd ≠ Gt) ->
  find_next_loop rd sched wd (pre ++ range) = find_next_loop rd sched wd range.
Proof.
  intros Hz. induction pre as [|d pre IH]; intros Hskip; [done|].
  cbn [app]. rewrite (find_next_loop_cons rd z) by done.
  assert (find_next_loop rd sched wd (pre ++ range)
          = find_next_loop rd sched wd range) as Hrest.
  { apply IH. intros d' wh' Hd'. apply Hskip. by right. }
  destruct (schedule_lookup ((wd + d) mod 7) sched) as [wh|] eqn:Hwh;
    [|done].
  specialize (Hskip d wh (list_elem_of_here _ _) Hwh). rewrite Hrest.
  by destruct (base_cmp (candidate_start rd d wh z) rd).
Qed.

(** The first offset with a later candidate decides the search. *)
Lemma find_next_loop_first rd z sched wd pre d wh range :
  tzinfo rd = Some z ->
  (∀ d' wh', d' ∈ pre ->
     schedule_lookup ((wd + d') mod 7) sched = Some wh' ->
     base_cmp (candidate_start rd d' wh' z) rd ≠ Gt) ->
  schedule_lookup ((wd + d) mod 7) sched = Some wh ->
  base_cmp (candidate_start rd d wh z) rd = Gt ->
  find_next_loop rd sched wd (pre ++ d :: range) =
  Ok (Some (datetime_add (candidate_start rd d wh z) (timedelta_minutes 15))).
Proof.
  intros Hz Hskip Hwh Hgt.
  rewrite (find_next_loop_skip rd z) by done.
  rewrite (find_next_loop_cons rd z) by done.
  by rewrite Hwh, Hgt.
Qed.

(** What a present result of the loop is: some offset of the range, its
    record, and the candidate start plus 15 minutes. *)
Lemma find_next_loop_Some rd z sched wd range r :
  tzinfo rd = Some z ->
  find_next_loop rd sched wd range = Ok (Some r) ->
  ∃ d wh,
    d ∈ range
    ∧ schedule_lookup ((wd + d) mod 7) sched = Some wh
    ∧ base_cmp (candidate_start rd d wh z) rd = Gt
    ∧ r = datetime_add (candidate_start rd d wh z) (timedelta_minutes 15).
Proof.
  intros Hz. induction range as [|d range IH]; [done|].
  rewrite (find_next_loop_cons rd z) by done.
  destruct (schedule_lookup ((wd + d) mod 7) sched) as [wh|] eqn:Hwh.
  - destruct (base_cmp (candidate_start rd d wh z) rd) eqn:Hcmp.
    + intros (d' & wh' & ? & ?)%IH. exists d', wh'. split; [by right|done].
    + intros (d' & wh' & ? & ?)%IH. exists d', wh'. split; [by right|done].
    + intros [= <-]. exists d, wh. split; [by left|done].
  - intros (d' & wh' & ? & ?)%IH. exists d', wh'. split; [by right|done].
Qed.

(** An absent result of the loop: no offset of the range has a record
    with a later candidate. *)
Lemma find_next_loop_None rd z sched wd range :
  tzinfo rd = Some z ->
  find_next_loop rd sched wd range = Ok None ↔
  ∀ d wh, d ∈ range -> schedule_lookup ((wd + d) mod 7) sched = Some wh ->
          base_cmp (candidate_start rd d wh z) rd ≠ Gt.
Proof.
  intros Hz. split.
  - induction range as [|d range IH]; [by intros _ ?? ?%elem_of_nil|].
    rewrite (find_next_loop_cons rd z) by done.
    intros Hnone d' wh' [->|Hd']%elem_of_cons Hwh'.
    + rewrite Hwh' in Hnone.
      by destruct (base_cmp (candidate_start rd d wh' z) rd).
    + apply IH; [|done..].
      destruct (schedule_lookup ((wd + d) mod 7) sched) as [wh|]; [|done].
      by destruct (base_cmp (candidate_start rd d wh z) rd).
  - intros Hskip.
    rewrite <-(app_nil_r range), (find_next_loop_skip rd z); done.
Qed.

(** The search never raises on an aware reference. *)
Lemma find_next_loop_returns rd z sched wd range :
  tzinfo rd = Some z -> ∃ o, find_next_loop rd sched wd range = Ok o.
Proof.
  intros Hz. induction range as [|d range [o IH]]; [by eexists|].
  rewrite (find_next_loop_cons rd z) by done.
  destruct (schedule_lookup ((wd + d) mod 7) sched) as [wh|]; [|by eexists].
  destruct (base_cmp (candidate_start rd d wh z) rd); by eexists.
Qed.

(** A record the lookup finds is a row of the schedule. *)
Lemma schedule_lookup_elem_of i sched wh :
  schedule_lookup i sched = Some wh -> wh ∈ sched.
Proof.
  unfold schedule_lookup. destruct (weekday_mapping !! i) as [name|]; [|done].
  cbn [mbind option_bind]. unfold first, filter_day_of_week.
  intros Hhead%head_Some_elem_of.
  by apply list_elem_of_filter in Hhead as [_ ?].
Qed.

(** A candidate on a later day is later than the reference, whatever the
    times are. *)
Lemma candidate_later_day rd z d wh :
  0 < d -> base_cmp (candidate_start rd d wh z) rd = Gt.
Proof.
  intros Hd. apply base_cmp_Gt. left.
  unfold candidate_start. cbn [dt_date toordinal]. lia.
Qed.

End services.

(** ** The expiration policy *)

Section expiration.
Context `{Timezones tz}.
Implicit Types (rd : datetime tz) (z : tz) (wh : WorkingHour.t).

Lemma is_within_working_hours_spec t wh :
  is_within_working_hours t wh = true ↔
  in_closed_interval (WorkingHour.start_time wh) (WorkingHour.end_time wh) t.
Proof. unfold is_within_working_hours. apply andb_true_iff. Qed.

Lemma is_during_break_spec t wh : is_during_break t wh = true ↔ in_break t wh.
Proof.
  unfold is_during_break, in_break, in_closed_interval.
  destruct (WorkingHour.break_start_time wh) as [bs|],
    (WorkingHour.break_end_time wh) as [be|].
  - rewrite andb_true_iff. split; [by exists bs, be|].
    by intros (? & ? & [= <-] & [= <-] & ?).
  - split; [done|]. by intros (? & ? & _ & ? & _).
  - split; [done|]. by intros (? & ? & ? & _).
  - split; [done|]. by intros (? & ? & ? & _).
Qed.

(** [set_request_expiration_datetime] by the record of the reference's
    weekday: the weekday index is always a key of [weekday_mapping]. *)
Lemma set_request_expiration_datetime_eq rd doctor_id objects :
  set_request_expiration_datetime rd doctor_id objects =
  match working_hour_lookup doctor_id (weekday (dt_date rd)) objects with
  | Some wh =>
      if is_within_working_hours (dt_time rd) wh then
        if is_during_break (dt_time rd) wh then
          break_end_datetime ←
            combine (dt_date rd) (WorkingHour.break_end_time wh);
          Ok (Some (datetime_add break_end_datetime (timedelta_minutes 15)))
        else Ok (Some (datetime_add rd (timedelta_minutes 20)))
      else
        find_next_working_period_start rd (filter_doctor_id doctor_id objects)
  | None =>
      find_next_working_period_start rd (filter_doctor_id doctor_id objects)
  end.
Proof.
  unfold set_request_expiration_datetime, working_hour_lookup,
    schedule_lookup, getitem.
  destruct (weekday_mapping_total (weekday (dt_date rd))) as [name ->];
    [apply weekday_bounds|].
  reflexivity.
Qed.

(** C2 (IN_BREAK expiration rule).  When the reference's wall-clock time
    lies within the working hours of the record of its weekday and inside
    the closed break interval of that record, the expiration is the
    reference's calendar date combined with the record's break end, plus
    15 minutes.  The combination is the naive datetime that
    [datetime.combine] builds. *)
Theorem in_break_expiration rd doctor_id objects wh bs be :
  working_hour_lookup doctor_id (weekday (dt_date rd)) objects = Some wh ->
  in_closed_interval (WorkingHour.start_time wh) (WorkingHour.end_time wh)
    (dt_time rd) ->
  WorkingHour.break_start_time wh = Some bs ->
  WorkingHour.break_end_time wh = Some be ->
  in_closed_interval bs be (dt_time rd) ->
  set_request_expiration_datetime rd doctor_id objects =
  Ok (Some (datetime_add (Datetime (dt_date rd) be None)
              (timedelta_minutes 15))).
Proof.
  intros Hwh Hin%is_within_working_hours_spec Hbs Hbe Hbreak.
  rewrite set_request_expiration_datetime_eq, Hwh, Hin.
  assert (is_during_break (dt_time rd) wh = true) as ->.
  { apply is_during_break_spec. by exists bs, be. }
  by rewrite Hbe.
Qed.

(** C3 (IN_HOURS expiration rule).  When the reference's wall-clock time
    lies within the working hours of the record of its weekday and not
    inside a break of that record, the expiration is exactly the reference
    plus 20 minutes. *)
Theorem in_hours_expiration rd doctor_id objects wh :
  working_hour_lookup doctor_id (weekday (dt_date rd)) objects = Some wh ->
  in_closed_interval (WorkingHour.start_time wh) (WorkingHour.end_time wh)
    (dt_time rd) ->
  ¬ in_break (dt_time rd) wh ->
  set_request_expiration_datetime rd doctor_id objects =
  Ok (Some (datetime_add rd (timedelta_minutes 20))).
Proof.
  intros Hwh Hin%is_within_working_hours_spec Hbreak.
  rewrite set_request_expiration_datetime_eq, Hwh, Hin.
  destruct (is_during_break (dt_time rd) wh) eqn:Hb; [|done].
  by apply is_during_break_spec in Hb.
Qed.

(** Outside the working hours of the day the expiration is whatever the
    next-window search returns. *)
Lemma outside_hours_expiration rd doctor_id objects :
  (∀ wh, working_hour_lookup doctor_id (weekday (dt_date rd)) objects
         = Some wh ->
         ¬ in_closed_interval (WorkingHour.start_time wh)
             (WorkingHour.end_time wh) (dt_time rd)) ->
  set_request_expiration_datetime rd doctor_id objects =
  find_next_working_period_start rd (filter_doctor_id doctor_id objects).
Proof.
  intros Hout. rewrite set_request_expiration_datetime_eq.
  destruct (working_hour_lookup _ _ _) as [wh|] eqn:Hwh; [|done].
  destruct (is_within_working_hours (dt_time rd) wh) eqn:Hin; [|done].
  apply is_within_working_hours_spec in Hin. by destruct (Hout wh).
Qed.

(** The search returns the first later candidate start plus 15 minutes:
    the 15 minutes are added inside [find_next_working_period_start]. *)
Lemma find_next_first_later rd z sched d wh :
  tzinfo rd = Some z ->
  0 <= d < 7 ->
  schedule_lookup ((weekday (dt_date rd) + d) mod 7) sched = Some wh ->
  datetime_gt (candidate_start rd d wh z) rd = Ok true ->
  (∀ d' wh', 0 <= d' < d ->
     schedule_lookup ((weekday (dt_date rd) + d') mod 7) sched = Some wh' ->
     datetime_gt (candidate_start rd d' wh' z) rd = Ok false) ->
  find_next_working_period_start rd sched =
  Ok (Some (datetime_add (candidate_start rd d wh z) (timedelta_minutes 15))).
Proof.
  intros Hz Hd Hwh Hgt Hskip. unfold find_next_working_period_start.
  replace (seqZ 0 7) with (seqZ 0 (d + (7 - d))) by (f_equal; lia).
  rewrite seqZ_app, (seqZ_cons (0 + d)), Z.add_0_l by lia.
  apply (find_next_loop_first rd z); [done| |done|].
  - intros d' wh' Hd'%elem_of_seqZ Hwh' Hgt'.
    apply (datetime_gt_same_zone_true _ rd z) in Hgt'; [|done..].
    rewrite (Hskip d' wh') in Hgt' by (done || lia). done.
  - by apply (datetime_gt_same_zone_true _ rd z) in Hgt.
Qed.

(** C4 (rollover expiration rule).  For an aware reference outside the
    working hours of its day (before hours, after hours, or no record that
    day), let [d] be the first day offset in 0..6 whose record's start
    time, combined with the reference date advanced by [d] and put in the
    reference's zone, is strictly later than the reference.  Then the
    expiration is that start instant plus 15 minutes.  (The search function
    accepts the start and returns it with the 15 minutes already added;
    the expiration function returns that value as it is.) *)
Theorem rollover_expiration rd z doctor_id objects d wh :
  tzinfo rd = Some z ->
  (∀ wh0, working_hour_lookup doctor_id (weekday (dt_date rd)) objects
          = Some wh0 ->
          ¬ in_closed_interval (WorkingHour.start_time wh0)
              (WorkingHour.end_time wh0) (dt_time rd)) ->
  0 <= d < 7 ->
  working_hour_lookup doctor_id ((weekday (dt_date rd) + d) mod 7) objects
  = Some wh ->
  datetime_gt (candidate_start rd d wh z) rd = Ok true ->
  (∀ d' wh', 0 <= d' < d ->
     working_hour_lookup doctor_id ((weekday (dt_date rd) + d') mod 7) objects
     = Some wh' ->
     datetime_gt (candidate_start rd d' wh' z) rd = Ok false) ->
  set_request_expiration_datetime rd doctor_id objects =
  Ok (Some (datetime_add (candidate_start rd d wh z) (timedelta_minutes 15))).
Proof.
  intros Hz Hout Hd Hwh Hgt Hskip.
  rewrite outside_hours_expiration by done.
  by apply find_next_first_later.
Qed.

(** C6 (forward progress).  Whenever the search returns a present
    instant, that instant is strictly later than the reference: only a
    candidate strictly later than the reference is accepted, and the
    returned instant is 15 minutes after it.  The start times of the
    schedule are [datetime.time] values, that is, within their field
    ranges. *)
Theorem find_next_strictly_later rd sched r :
  Forall (λ wh, valid_time (WorkingHour.start_time wh)) sched ->
  find_next_working_period_start rd sched = Ok (Some r) ->
  datetime_gt r rd = Ok true.
Proof.
  intros Hvalid Hfind. unfold find_next_working_period_start in Hfind.
  destruct (tzinfo rd) as [z|] eqn:Hz; revgoals.
  { by apply find_next_loop_naive in Hfind. }
  destruct (find_next_loop_Some rd z _ _ _ _ Hz Hfind)
    as (d & wh & _ & Hwh & Hgt & Hr).
  rewrite Hr. apply (datetime_gt_same_zone_true _ rd z); [done..|].
  eapply base_cmp_Gt_trans; [|exact Hgt].
  apply datetime_add_minutes_later; [|lia].
  apply schedule_lookup_elem_of in Hwh.
  by apply (proj1 (Forall_forall _ _) Hvalid) in Hwh.
Qed.

(** The zone of the reference is the zone of what the search returns. *)
Lemma find_next_keeps_zone rd z sched r :
  tzinfo rd = Some z ->
  find_next_working_period_start rd sched = Ok (Some r) ->
  tzinfo r = Some z.
Proof.
  intros Hz Hfind.
  destruct (find_next_loop_Some rd z _ _ _ _ Hz Hfind)
    as (d & wh & _ & _ & _ & Hr).
  by rewrite Hr.
Qed.

(** The in-hours expiration is in the zone of the reference. *)
Lemma in_hours_expiration_keeps_zone rd (m : Z) :
  tzinfo (datetime_add rd (timedelta_minutes m)) = tzinfo rd.
Proof. reflexivity. Qed.

(** The in-break expiration is naive, whatever the zone of the reference:
    [datetime.combine] of a date and a naive time has no zone, and nothing
    attaches one afterwards. *)
Lemma in_break_expiration_naive rd doctor_id objects wh e :
  working_hour_lookup doctor_id (weekday (dt_date rd)) objects = Some wh ->
  in_closed_interval (WorkingHour.start_time wh) (WorkingHour.end_time wh)
    (dt_time rd) ->
  in_break (dt_time rd) wh ->
  set_request_expiration_datetime rd doctor_id objects = Ok (Some e) ->
  tzinfo e = None.
Proof.
  intros Hwh Hin%is_within_working_hours_spec Hbreak%is_during_break_spec.
  rewrite set_request_expiration_datetime_eq, Hwh, Hin, Hbreak.
  destruct (WorkingHour.break_end_time wh) as [be|]; [|done].
  by intros [= <-].
Qed.

(** With no record at all in the schedule the search returns absent. *)
Lemma find_next_no_records rd :
  find_next_working_period_start rd [] = Ok None.
Proof.
  unfold find_next_working_period_start.
  generalize (weekday (dt_date rd)) as wd. intros wd.
  induction (seqZ 0 7) as [|d range IH]; [done|].
  cbn [find_next_loop]. unfold getitem.
  destruct (weekday_mapping_total ((wd + d) mod 7)) as [name ->]; [|done].
  apply Z.mod_pos_bound. lia.
Qed.

(** A record on another weekday than the reference's makes the search
    return a present instant. *)
Lemma find_next_other_weekday rd z sched d wh :
  tzinfo rd = Some z ->
  1 <= d < 7 ->
  schedule_lookup ((weekday (dt_date rd) + d) mod 7) sched = Some wh ->
  ∃ r, find_next_working_period_start rd sched = Ok (Some r).
Proof.
  intros Hz Hd Hwh. unfold find_next_working_period_start.
  destruct (find_next_loop_returns rd z sched (weekday (dt_date rd))
              (seqZ 0 7) Hz) as [[r|] Hr]; [by exists r|].
  rewrite (find_next_loop_None rd z) in Hr by done.
  destruct (Hr d wh); [apply elem_of_seqZ; lia|done|].
  apply candidate_later_day. lia.
Qed.

(** X16.  For an aware reference the search is absent exactly when no
    other weekday has a record and
    the record of the reference's own weekday, if any, does not start
    later than the reference's time. *)
Lemma find_next_absent_iff rd z sched :
  tzinfo rd = Some z ->
  find_next_working_period_start rd sched = Ok None ↔
  (∀ d, 1 <= d < 7 ->
        schedule_lookup ((weekday (dt_date rd) + d) mod 7) sched = None)
  ∧ (∀ wh, schedule_lookup (weekday (dt_date rd)) sched = Some wh ->
           time_cmp (WorkingHour.start_time wh) (dt_time rd) ≠ Gt).
Proof.
  intros Hz. unfold find_next_working_period_start.
  rewrite (find_next_loop_None rd z) by done.
  pose proof (weekday_bounds (dt_date rd)) as Hwd. split.
  - intros Hnone. split.
    + intros d Hd.
      destruct (schedule_lookup _ sched) as [wh|] eqn:Hwh; [|done].
      destruct (Hnone d wh); [apply elem_of_seqZ; lia|done|].
      apply candidate_later_day. lia.
    + intros wh Hwh Hgt. apply (Hnone 0 wh).
      * apply elem_of_seqZ. lia.
      * by rewrite Z.add_0_r, Z.mod_small.
      * apply base_cmp_Gt. right. unfold candidate_start.
        cbn [dt_date dt_time toordinal]. split; [lia|done].
  - intros [Hothers Htoday] d wh Hd%elem_of_seqZ Hwh Hgt.
    destruct (decide (d = 0)) as [->|Hne].
    + rewrite Z.add_0_r, Z.mod_small in Hwh by done.
      apply (Htoday wh Hwh). apply base_cmp_Gt in Hgt as [Hlt|[_ Hgt]]; [|done].
      unfold candidate_start in Hlt. cbn [dt_date toordinal] in Hlt. lia.
    + rewrite Hothers in Hwh by lia. done.
Qed.

End expiration.

(** ** Creation and acceptance of requests *)

Lemma time_cmp_antisym (a b : time) : time_cmp b a = CompOpp (time_cmp a b).
Proof.
  unfold time_cmp.
  rewrite (Z.compare_antisym (hour a) (hour b)),
    (Z.compare_antisym (minute a) (minute b)),
    (Z.compare_antisym (second a) (second b)),
    (Z.compare_antisym (microsecond a) (microsecond b)).
  by destruct (hour a ?= hour b), (minute a ?= minute b),
    (second a ?= second b), (microsecond a ?= microsecond b).
Qed.

(** The strict tests of the creation service are the complement of the
    closed interval of the boundary policy. *)
Lemma outside_hours_spec (t lo hi : time) :
  time_lt t lo || time_gt t hi = true ↔ ¬ in_closed_interval lo hi t.
Proof.
  unfold in_closed_interval, time_lt, time_gt, time_le.
  rewrite (time_cmp_antisym t lo).
  destruct (time_cmp t lo), (time_cmp t hi); cbn; intuition congruence.
Qed.

(** The single filter of the creation service finds the record of the
    lookup. *)
Lemma creation_filter_lookup doctor_id i name objects :
  weekday_mapping !! i = Some name ->
  first
    (filter
       (λ wh, WorkingHour.doctor_id wh = doctor_id
              ∧ WorkingHour.day_of_week wh = name) objects)
  = working_hour_lookup doctor_id i objects.
Proof.
  intros Hname. unfold working_hour_lookup, schedule_lookup.
  rewrite Hname. cbn [mbind option_bind].
  unfold filter_day_of_week, filter_doctor_id.
  rewrite list_filter_filter. f_equal.
  apply list_filter_iff. intros wh. tauto.
Qed.

Section requests.
Context `{Timezones tz}.
Implicit Types (rd now : datetime tz) (z : tz) (db : Database tz).


(** C9 (acceptance state machine).  An acceptance attempt on an unknown
    id returns the not-found error.  On an existing request whose stored
    expiration compares with the current instant: strictly after the
    expiration the attempt returns the expired error; otherwise, on a
    request already accepted, the already-accepted error; otherwise the
    status becomes accepted and the row is stored.  The errors leave the
    store as it was, and whatever the call, a stored request whose status
    is accepted stays as it is. *)
Theorem acceptance_state_machine (id : Z) now db :
  (appointment_requests db !! id = None ->
   update_appointment_request_status id "accepted" now db
   = Ok (ErrorDict "Appointment request not found", db))
  ∧ (∀ ar exp,
       appointment_requests db !! id = Some ar ->
       AppointmentRequest.request_expiration_datetime ar = Some exp ->
       (datetime_gt now exp = Ok true ->
        update_appointment_request_status id "accepted" now db
        = Ok (ErrorDict "Appointment request expired", db))
       ∧ (datetime_gt now exp = Ok false ->
          AppointmentRequest.status ar = "accepted"%string ->
          update_appointment_request_status id "accepted" now db
          = Ok (ErrorDict "Appointment request already accepted", db))
       ∧ (datetime_gt now exp = Ok false ->
          AppointmentRequest.status ar ≠ "accepted"%string ->
          ∃ ar' db',
            update_appointment_request_status id "accepted" now db
            = Ok (SerializerData id ar', db')
            ∧ AppointmentRequest.status ar' = "accepted"%string
            ∧ AppointmentRequest.patient_id ar'
              = AppointmentRequest.patient_id ar
            ∧ AppointmentRequest.doctor_id ar'
              = AppointmentRequest.doctor_id ar
            ∧ AppointmentRequest.preferred_datetime ar'
              = AppointmentRequest.preferred_datetime ar
            ∧ AppointmentRequest.request_expiration_datetime ar' = Some exp
            ∧ appointment_requests db' !! id = Some ar'
            ∧ ∀ id', id' ≠ id ->
                appointment_requests db' !! id'
                = appointment_requests db !! id'))
  ∧ (∀ new_status resp db' id' r,
       update_appointment_request_status id new_status now db
       = Ok (resp, db') ->
       appointment_requests db !! id' = Some r ->
       AppointmentRequest.status r = "accepted"%string ->
       appointment_requests db' !! id' = Some r).
Proof.
  unfold update_appointment_request_status. split; [by intros ->|]. split.
  - intros ar exp -> ->. cbn [mbind result_bind]. repeat split.
    + by intros ->.
    + intros -> ->. cbn [mbind result_bind]. by rewrite bool_decide_false by auto.
    + intros -> Hst. cbn [mbind result_bind]. rewrite bool_decide_true by done.
      do 2 eexists. split; [done|]. cbn. repeat split; [done..| |].
      * apply lookup_insert_eq.
      * intros id' Hne. by apply lookup_insert_ne.
  - intros new_status resp db' id' r Hupd Hr Hst.
    destruct (appointment_requests db !! id) as [ar|] eqn:Har;
      [|by injection Hupd as _ <-].
    destruct (AppointmentRequest.request_expiration_datetime ar) as [exp|];
      [|done].
    cbn [mbind result_bind] in Hupd.
    destruct (datetime_gt now exp) as [[|]|]; cbn [mbind result_bind] in Hupd;
      [by injection Hupd as _ <-| |done].
    case_bool_decide as Hne; [|by injection Hupd as _ <-].
    injection Hupd as _ <-. cbn.
    rewrite lookup_insert_ne; [done|]. intros ->. congruence.
Qed.

(** C10 (error-check precedence at acceptance).  On a request that is
    already accepted, an attempt strictly after the expiration returns the
    expired error, not the already-accepted one; and the already-accepted
    error comes back only when the current instant is not after the
    expiration. *)
Theorem expired_before_already_accepted (id : Z) new_status now db ar exp :
  appointment_requests db !! id = Some ar ->
  AppointmentRequest.request_expiration_datetime ar = Some exp ->
  AppointmentRequest.status ar = "accepted"%string ->
  (datetime_gt now exp = Ok true ->
   update_appointment_request_status id new_status now db
   = Ok (ErrorDict "Appointment request expired", db))
  ∧ (∀ db',
       update_appointment_request_status id new_status now db
       = Ok (ErrorDict "Appointment request already accepted", db') ->
       datetime_gt now exp = Ok false).
Proof.
  intros Har Hexp Hst. unfold update_appointment_request_status.
  rewrite Har, Hexp. cbn [mbind result_bind]. split.
  - by intros ->.
  - intros db'. destruct (datetime_gt now exp) as [[|]|]; [|done..].
    cbn [mbind result_bind]. intros Hupd. discriminate Hupd.
Qed.

End requests.

(** ** The scenarios *)

(** X17.  Without a record of the doctor the expiration is absent
    (Scenario D), for every reference, naive or aware. *)
Lemma expiration_absent_without_records `{Timezones tz}
    (rd : datetime tz) doctor_id objects :
  filter_doctor_id doctor_id objects = [] ->
  set_request_expiration_datetime rd doctor_id objects = Ok None.
Proof.
  intros Hnone. rewrite set_request_expiration_datetime_eq.
  unfold working_hour_lookup, schedule_lookup. rewrite Hnone.
  destruct (weekday_mapping !! weekday (dt_date rd));
    apply find_next_no_records.
Qed.

(** Scenario A: hours 09:00 to 17:00, reference Monday 10:00, expiration
    Monday 10:20. *)
Lemma scenario_A_in_hours :
  set_request_expiration_datetime (at_kst monday (hm 10 0)) 1 [monday_plain]
  = Ok (Some (at_kst monday (hm 10 20))).
Proof.
  apply (in_hours_expiration (at_kst monday (hm 10 0)) 1 [monday_plain]
           monday_plain).
  - reflexivity.
  - split; reflexivity.
  - intros (bs & be & Hbs & _). discriminate Hbs.
Defined.

(** Scenario B: break 12:00 to 13:00, reference Monday 12:30, expiration
    Monday 13:15 (a naive datetime). *)
Lemma scenario_B_in_break :
  set_request_expiration_datetime (at_kst monday (hm 12 30)) 1
    [monday_with_break]
  = Ok (Some (Datetime monday (hm 13 15) None)).
Proof.
  apply (in_break_expiration (at_kst monday (hm 12 30)) 1 [monday_with_break]
           monday_with_break (hm 12 0) (hm 13 0)).
  - reflexivity.
  - split; reflexivity.
  - reflexivity.
  - reflexivity.
  - split; reflexivity.
Defined.

(** Scenario C: reference Monday 18:00, the next availability Wednesday
    09:00, expiration Wednesday 09:15. *)
Lemma scenario_C_rollover :
  set_request_expiration_datetime (at_kst monday (hm 18 0)) 1
    [monday_plain; wednesday_plain]
  = Ok (Some (at_kst wednesday (hm 9 15))).
Proof.
  apply (rollover_expiration (at_kst monday (hm 18 0)) KST 1
           [monday_plain; wednesday_plain] 2 wednesday_plain).
  - reflexivity.
  - intros wh0 [= <-] [_ Hle]. discriminate Hle.
  - lia.
  - reflexivity.
  - reflexivity.
  - intros d' wh' Hd'. assert (d' = 0 ∨ d' = 1) as [-> | ->] by lia.
    + intros [= <-]. reflexivity.
    + intros Hwh'. discriminate Hwh'.
Defined.

(** The instant the search returns in Scenario C is later than the
    reference. *)
Lemma scenario_C_strictly_later :
  datetime_gt (at_kst wednesday (hm 9 15)) (at_kst monday (hm 18 0)) = Ok true.
Proof.
  apply (find_next_strictly_later (at_kst monday (hm 18 0))
           [monday_plain; wednesday_plain]).
  - repeat constructor; cbn; lia.
  - reflexivity.
Defined.

(** C1 (timezone preservation): the in-break branch does not keep it.
    In Scenario B with the reference in the zone UTC+9, the expiration
    that comes back has no zone. *)
Theorem in_break_expiration_drops_zone :
  tzinfo (at_kst monday (hm 12 30)) = Some KST
  ∧ ∃ e,
      set_request_expiration_datetime (at_kst monday (hm 12 30)) 1
        [monday_with_break] = Ok (Some e)
      ∧ e = Datetime monday (hm 13 15) None
      ∧ tzinfo e = None.
Proof. split; [reflexivity|]. eexists. repeat split; reflexivity. Qed.

(** C5 (absent exactly when there is no record): a doctor working on
    Mondays only, asked on a Monday after the start of the hours, has a
    record and still gets an absent result: the seven offsets stop one day
    short of the next Monday. *)
Theorem find_next_absent_with_a_record :
  schedule_lookup (weekday monday) [monday_plain] = Some monday_plain
  ∧ find_next_working_period_start (at_kst monday (hm 18 0)) [monday_plain]
    = Ok None.
Proof. split; reflexivity. Qed.

(** For a doctor without any record the creation service stops at its
    first check: nothing is stored and the expiration policy is not
    reached. *)
Lemma creation_rejected_without_records `{Timezones tz} patient_id doctor_id
    (preferred_datetime : datetime tz) request_datetime (db : Database tz) :
  filter_doctor_id doctor_id (working_hours db) = [] ->
  create_appointment_request_service patient_id doctor_id preferred_datetime
    request_datetime db
  = Ok (ErrorDict "Doctor is not available at that day", db).
Proof.
  intros Hnone. unfold create_appointment_request_service.
  destruct (weekday_mapping_total (weekday (dt_date preferred_datetime)))
    as [name Hname]; [apply weekday_bounds|].
  unfold getitem. rewrite Hname. cbn [mbind result_bind].
  rewrite (creation_filter_lookup _ _ _ _ Hname).
  unfold working_hour_lookup, schedule_lookup.
  by rewrite Hname, Hnone.
Qed.

(** In Scenario D itself the creation service stops at its first check
    and the expiration policy is not reached. *)
Lemma scenario_D_creation_rejected :
  set_request_expiration_datetime (at_kst monday (hm 18 0)) 1 [] = Ok None
  ∧ create_appointment_request_service 7 1 (at_kst next_monday (hm 10 0))
      (Some (at_kst monday (hm 18 0))) (store_of [])
    = Ok (ErrorDict "Doctor is not available at that day", store_of []).
Proof. split; reflexivity. Qed.

(** A preferred time on the boundary of the hours is accepted, one on the
    boundary of the break is rejected. *)
Lemma creation_at_boundaries :
  create_appointment_request_service 7 1 (at_kst next_monday (hm 17 0))
    (Some (at_kst monday (hm 10 0))) (store_of [monday_with_break])
  = Ok (SerializerData 1
          (AppointmentRequest.Build 7 1 (at_kst next_monday (hm 17 0))
             (Some (at_kst monday (hm 10 20))) default_status),
        MkDatabase [monday_with_break]
          (<[1 := AppointmentRequest.Build 7 1 (at_kst next_monday (hm 17 0))
                    (Some (at_kst monday (hm 10 20))) default_status]> ∅) 2)
  ∧ create_appointment_request_service 7 1 (at_kst next_monday (hm 13 0))
      (Some (at_kst monday (hm 10 0))) (store_of [monday_with_break])
    = Ok (ErrorDict
            "Doctor is having lunch break, can't make appointment for this time",
          store_of [monday_with_break]).
Proof. split; reflexivity. Qed.

(** An acceptance in time of the pending request: it becomes accepted. *)
Lemma acceptance_in_time :
  ∃ ar' db',
    update_appointment_request_status 1 "accepted"
      (at_kst monday (hm 10 10)) (store_with pending_request)
    = Ok (SerializerData 1 ar', db')
    ∧ AppointmentRequest.status ar' = "accepted"%string
    ∧ AppointmentRequest.patient_id ar'
      = AppointmentRequest.patient_id pending_request
    ∧ AppointmentRequest.doctor_id ar'
      = AppointmentRequest.doctor_id pending_request
    ∧ AppointmentRequest.preferred_datetime ar'
      = AppointmentRequest.preferred_datetime pending_request
    ∧ AppointmentRequest.request_expiration_datetime ar'
      = Some (at_kst monday (hm 10 20))
    ∧ appointment_requests db' !! 1 = Some ar'
    ∧ ∀ id', id' ≠ 1 ->
        appointment_requests db' !! id'
        = appointment_requests (store_with pending_request) !! id'.
Proof.
  destruct (acceptance_state_machine 1 (at_kst monday (hm 10 10))
              (store_with pending_request)) as (_ & Hfound & _).
  destruct (Hfound pending_request (at_kst monday (hm 10 20))
              eq_refl eq_refl) as (_ & _ & Haccept).
  apply Haccept; [reflexivity|discriminate].
Defined.

(** Scenario E: an attempt after the expiration is refused as expired; a
    second attempt in time on the accepted request is refused as already
    accepted. *)
Lemma scenario_E_acceptance :
  update_appointment_request_status 1 "accepted" (at_kst monday (hm 10 21))
    (store_with pending_request)
  = Ok (ErrorDict "Appointment request expired", store_with pending_request)
  ∧ update_appointment_request_status 1 "accepted" (at_kst monday (hm 10 10))
      (store_with pending_request)
    = Ok (SerializerData 1 accepted_request, store_with accepted_request)
  ∧ update_appointment_request_status 1 "accepted" (at_kst monday (hm 10 15))
      (store_with accepted_request)
    = Ok (ErrorDict "Appointment request already accepted",
          store_with accepted_request)
  ∧ update_appointment_request_status 2 "accepted" (at_kst monday (hm 10 10))
      (store_with pending_request)
    = Ok (ErrorDict "Appointment request not found",
          store_with pending_request).
Proof. repeat split; reflexivity. Qed.

(** An accepted request attempted after its expiration: the answer is
    the expired error. *)
Lemma accepted_then_expired :
  update_appointment_request_status 1 "accepted"
    (at_kst monday (hm 10 21)) (store_with accepted_request)
  = Ok (ErrorDict "Appointment request expired", store_with accepted_request).
Proof.
  apply (expired_before_already_accepted 1 "accepted"
           (at_kst monday (hm 10 21)) (store_with accepted_request)
           accepted_request (at_kst monday (hm 10 20)));
    reflexivity.
Defined.

(** * Further properties of the services *)

(** ** The next-window search *)

Lemma weekday_add (d : date) (n : Z) :
  weekday (Date (toordinal d + n)) = (weekday d + n) mod 7.
Proof.
  unfold weekday. cbn [toordinal].
  rewrite Z.add_mod_idemp_l by lia. f_equal. lia.
Qed.

(** Every weekday identifier has its index. *)
Lemma weekday_mapping_onto (name : DayName) :
  ∃ i, 0 <= i < 7 ∧ weekday_mapping !! i = Some name.
Proof.
  destruct name;
    [exists 0|exists 1|exists 2|exists 3|exists 4|exists 5|exists 6];
    (split; [lia|reflexivity]).
Qed.

(** A row of the schedule makes the lookup of its weekday succeed. *)
Lemma schedule_lookup_is_Some i sched wh :
  weekday_mapping !! i = Some (WorkingHour.day_of_week wh) ->
  wh ∈ sched -> is_Some (schedule_lookup i sched).
Proof.
  intros Hname Hin. unfold schedule_lookup. rewrite Hname.
  cbn [mbind option_bind]. unfold first. apply head_is_Some.
  intros Hnil. assert (wh ∈ filter_day_of_week (WorkingHour.day_of_week wh)
                              sched) as Hf.
  { unfold filter_day_of_week. by apply list_elem_of_filter. }
  rewrite Hnil in Hf. by apply elem_of_nil in Hf.
Qed.

(** The record a lookup finds carries the weekday of the index. *)
Lemma schedule_lookup_day i sched wh :
  schedule_lookup i sched = Some wh ->
  weekday_mapping !! i = Some (WorkingHour.day_of_week wh).
Proof.
  unfold schedule_lookup. destruct (weekday_mapping !! i) as [name|]; [|done].
  cbn [mbind option_bind]. unfold first, filter_day_of_week.
  intros Hhead%head_Some_elem_of.
  apply list_elem_of_filter in Hhead as [-> _]. done.
Qed.

Section search.
Context `{Timezones tz}.
Implicit Types (rd : datetime tz) (z : tz) (wh : WorkingHour.t).

(** One turn of the loop for a naive reference: the first record found
    ends the search with a [TypeError]. *)
Lemma find_next_loop_cons_naive rd sched wd d range :
  tzinfo rd = None ->
  find_next_loop rd sched wd (d :: range) =
  match schedule_lookup ((wd + d) mod 7) sched with
  | None => find_next_loop rd sched wd range
  | Some _ => Raise TypeError
  end.
Proof.
  intros Hz. cbn [find_next_loop]. unfold getitem, schedule_lookup.
  destruct (weekday_mapping_total ((wd + d) mod 7)) as [name ->].
  { apply Z.mod_pos_bound. lia. }
  cbn [mbind result_bind option_bind].
  destruct (first (filter_day_of_week name sched)) as [wh|]; [|done].
  cbn [combine mbind result_bind]. unfold make_aware.
  cbn [is_aware tzinfo mbind result_bind].
  unfold datetime_gt, datetime_cmp. cbn [tzinfo]. by rewrite Hz.
Qed.

Lemma find_next_loop_naive_raises rd sched wd range d wh :
  tzinfo rd = None -> d ∈ range ->
  schedule_lookup ((wd + d) mod 7) sched = Some wh ->
  find_next_loop rd sched wd range = Raise TypeError.
Proof.
  intros Hz Hd Hwh. induction range as [|d' range IH];
    [by apply elem_of_nil in Hd|].
  rewrite find_next_loop_cons_naive by done.
  destruct (schedule_lookup ((wd + d') mod 7) sched) eqn:Hd'; [done|].
  apply elem_of_cons in Hd as [->|Hd]; [congruence|by apply IH].
Qed.

(** A naive reference and a schedule with a record: [TypeError]. *)
Lemma find_next_naive_reference_raises_aux rd sched wh :
  tzinfo rd = None -> wh ∈ sched ->
  find_next_working_period_start rd sched = Raise TypeError.
Proof.
  intros Hz Hin.
  destruct (weekday_mapping_onto (WorkingHour.day_of_week wh))
    as (i & Hi & Hname).
  destruct (schedule_lookup_is_Some i sched wh Hname Hin) as [wh' Hwh'].
  pose proof (weekday_bounds (dt_date rd)) as Hwd.
  unfold find_next_working_period_start.
  apply (find_next_loop_naive_raises rd sched _ _
           ((i - weekday (dt_date rd)) mod 7) wh'); [done| |].
  - apply elem_of_seqZ. pose proof (Z.mod_pos_bound (i - weekday (dt_date rd)) 7).
    lia.
  - rewrite Z.add_mod_idemp_r by lia.
    replace (weekday (dt_date rd) + (i - weekday (dt_date rd))) with i by lia.
    by rewrite Z.mod_small.
Qed.

(** X1.  With a naive reference the search raises [TypeError] as soon as
    the schedule has a record for some weekday: the candidate is made
    aware in the current zone and cannot be compared with the naive
    reference. *)
Theorem find_next_naive_reference_raises rd sched wh :
  tzinfo rd = None -> wh ∈ sched ->
  find_next_working_period_start rd sched = Raise TypeError.
Proof. apply find_next_naive_reference_raises_aux. Qed.

(** X2.  The instant the search returns is 15 minutes after a start that
    lies 0 to 6 days after the reference date, in the reference's zone, at
    the start time of the record the schedule has for the weekday of that
    very date. *)
Theorem find_next_start_of_own_weekday rd z sched r :
  tzinfo rd = Some z ->
  find_next_working_period_start rd sched = Ok (Some r) ->
  ∃ c wh,
    r = datetime_add c (timedelta_minutes 15)
    ∧ tzinfo c = Some z
    ∧ toordinal (dt_date rd) <= toordinal (dt_date c)
      <= toordinal (dt_date rd) + 6
    ∧ schedule_lookup (weekday (dt_date c)) sched = Some wh
    ∧ dt_time c = WorkingHour.start_time wh.
Proof.
  intros Hz Hfind.
  destruct (find_next_loop_Some rd z _ _ _ _ Hz Hfind)
    as (d & wh & Hd%elem_of_seqZ & Hwh & _ & Hr).
  exists (candidate_start rd d wh z), wh. repeat split; [done| | |].
  - cbn [candidate_start dt_date toordinal]. lia.
  - cbn [candidate_start dt_date toordinal]. lia.
  - unfold candidate_start. cbn [dt_date]. by rewrite weekday_add.
Qed.

(** X3.  A doctor with records on two different weekdays always gets a
    present instant from the search, whatever the aware reference. *)
Theorem find_next_present_two_weekdays rd z sched wh1 wh2 :
  tzinfo rd = Some z ->
  wh1 ∈ sched -> wh2 ∈ sched ->
  WorkingHour.day_of_week wh1 ≠ WorkingHour.day_of_week wh2 ->
  ∃ r, find_next_working_period_start rd sched = Ok (Some r).
Proof.
  intros Hz Hin1 Hin2 Hne.
  destruct (weekday_mapping_onto (WorkingHour.day_of_week wh1))
    as (i1 & Hi1 & Hname1).
  destruct (weekday_mapping_onto (WorkingHour.day_of_week wh2))
    as (i2 & Hi2 & Hname2).
  pose proof (weekday_bounds (dt_date rd)) as Hwd.
  assert (∃ i wh, 0 <= i < 7 ∧ i ≠ weekday (dt_date rd)
                  ∧ is_Some (schedule_lookup i sched)) as (i & _ & Hi & Hnot & [wh Hwh]).
  { destruct (decide (i1 = weekday (dt_date rd))) as [He1|Hn1].
    - exists i2, wh2. split; [done|]. split.
      + intros He2. rewrite <-He1 in He2. subst i2. congruence.
      + by apply (schedule_lookup_is_Some _ _ wh2).
    - exists i1, wh1. split; [done|]. split; [done|].
      by apply (schedule_lookup_is_Some _ _ wh1). }
  apply (find_next_other_weekday rd z sched
           ((i - weekday (dt_date rd)) mod 7) wh); [done| |].
  - pose proof (Z.mod_pos_bound (i - weekday (dt_date rd)) 7).
    assert ((i - weekday (dt_date rd)) mod 7 ≠ 0); [|lia].
    intros Hz0. apply Z.mod_divide in Hz0 as [k Hk]; lia.
  - rewrite Z.add_mod_idemp_r by lia.
    replace (weekday (dt_date rd) + (i - weekday (dt_date rd))) with i by lia.
    by rewrite Z.mod_small.
Qed.

End search.

(** ** The expiration of a request *)

Lemma candidate_start_0 {tz} (rd : datetime tz) (z : tz) wh :
  candidate_start rd 0 wh z
  = Datetime (dt_date rd) (WorkingHour.start_time wh) (Some z).
Proof.
  unfold candidate_start. f_equal. destruct (dt_date rd) as [o].
  cbn [toordinal]. f_equal. lia.
Qed.

(** Later than something not earlier than the reference, on the
    reference's date: later than the reference. *)
Lemma base_cmp_Gt_time_le {tz} (a b c : datetime tz) :
  base_cmp a b = Gt ->
  toordinal (dt_date b) = toordinal (dt_date c) ->
  time_le (dt_time c) (dt_time b) = true ->
  base_cmp a c = Gt.
Proof.
  intros Hab Hdate Hle. unfold time_le in Hle.
  assert (time_cmp (dt_time c) (dt_time b) ≠ Gt) as Hn
    by (by destruct (time_cmp (dt_time c) (dt_time b))).
  rewrite time_cmp_Gt in Hn.
  rewrite !base_cmp_Gt, !time_cmp_Gt in *. lia.
Qed.

(** Adding up to a day of minutes moves the date by one day at most. *)
Lemma datetime_add_minutes_date {tz} (c : datetime tz) (m : Z) :
  valid_time (dt_time c) -> 0 <= m <= 1440 ->
  toordinal (dt_date c) <= toordinal (dt_date (datetime_add c (timedelta_minutes m)))
  <= toordinal (dt_date c) + 1.
Proof.
  intros (Hh & Hm & Hs & Hu) Hpos.
  unfold datetime_add, timedelta_add, timedelta_minutes, mk_timedelta.
  cbn [dt_date dt_time toordinal hour minute second microsecond days seconds
       microseconds].
  Z.div_mod_to_equations; lia.
Qed.

(** A search that runs over the same records returns the same. *)
Lemma find_next_loop_ext `{Timezones tz} (rd : datetime tz) s1 s2 wd range :
  (∀ name, first (filter_day_of_week name s1)
           = first (filter_day_of_week name s2)) ->
  find_next_loop rd s1 wd range = find_next_loop rd s2 wd range.
Proof.
  intros Hext. induction range as [|d range IH]; [done|].
  cbn [find_next_loop].
  destruct (getitem weekday_mapping ((wd + d) mod 7)) as [name|]; [|done].
  cbn [mbind result_bind]. rewrite Hext, IH. done.
Qed.

Lemma set_request_expiration_datetime_ext `{Timezones tz}
    (rd : datetime tz) doctor_id o1 o2 :
  (∀ name, first (filter_day_of_week name (filter_doctor_id doctor_id o1))
           = first (filter_day_of_week name (filter_doctor_id doctor_id o2))) ->
  set_request_expiration_datetime rd doctor_id o1
  = set_request_expiration_datetime rd doctor_id o2.
Proof.
  intros Hext. unfold set_request_expiration_datetime,
    find_next_working_period_start.
  destruct (getitem weekday_mapping (weekday (dt_date rd))) as [name|];
    [|done].
  cbn [mbind result_bind].
  by rewrite Hext, (find_next_loop_ext rd _ _ _ _ Hext).
Qed.

Section expiration_bounds.
Context `{Timezones tz}.
Implicit Types (rd : datetime tz) (z : tz) (wh : WorkingHour.t).

Lemma working_hour_lookup_elem_of doctor_id i objects wh :
  working_hour_lookup doctor_id i objects = Some wh -> wh ∈ objects.
Proof.
  intros Hwh%schedule_lookup_elem_of. unfold filter_doctor_id in Hwh.
  by apply list_elem_of_filter in Hwh as [_ ?].
Qed.

(** What the search returns, when it returns an instant: an offset of the
    week and the candidate at it. *)
Lemma find_next_Some rd sched r :
  find_next_working_period_start rd sched = Ok (Some r) ->
  ∃ z d wh,
    tzinfo rd = Some z ∧ 0 <= d < 7 ∧ wh ∈ sched
    ∧ base_cmp (candidate_start rd d wh z) rd = Gt
    ∧ r = datetime_add (candidate_start rd d wh z) (timedelta_minutes 15).
Proof.
  intros Hfind. unfold find_next_working_period_start in Hfind.
  destruct (tzinfo rd) as [z|] eqn:Hz; revgoals.
  { by apply find_next_loop_naive in Hfind. }
  destruct (find_next_loop_Some rd z _ _ _ _ Hz Hfind)
    as (d & wh & Hd%elem_of_seqZ & Hwh%schedule_lookup_elem_of & Hgt & Hr).
  exists z, d, wh. repeat split; [lia|lia|done..].
Qed.

(** X4.  Before the start of the hours on a working day of the doctor, the
    expiration of an aware request is the start of that same day plus 15
    minutes. *)
Theorem before_hours_expiration rd z doctor_id objects wh :
  tzinfo rd = Some z ->
  working_hour_lookup doctor_id (weekday (dt_date rd)) objects = Some wh ->
  time_lt (dt_time rd) (WorkingHour.start_time wh) = true ->
  set_request_expiration_datetime rd doctor_id objects =
  Ok (Some (datetime_add
              (Datetime (dt_date rd) (WorkingHour.start_time wh) (Some z))
              (timedelta_minutes 15))).
Proof.
  intros Hz Hwh Hlt. unfold time_lt in Hlt.
  assert (time_cmp (dt_time rd) (WorkingHour.start_time wh) = Lt) as Hcmp
    by (by destruct (time_cmp (dt_time rd) (WorkingHour.start_time wh))).
  pose proof (time_cmp_antisym (dt_time rd) (WorkingHour.start_time wh))
    as Hanti. rewrite Hcmp in Hanti. cbn [CompOpp] in Hanti.
  pose proof (weekday_bounds (dt_date rd)) as Hwd.
  rewrite outside_hours_expiration.
  - rewrite <-candidate_start_0.
    apply find_next_first_later; [done|lia| | |intros; lia].
    + by rewrite Z.add_0_r, Z.mod_small.
    + apply (datetime_gt_same_zone_true _ rd z); [done..|].
      apply base_cmp_Gt. right. rewrite candidate_start_0. by cbn.
  - intros wh0 Hwh0 [Hle _]. rewrite Hwh in Hwh0. injection Hwh0 as <-.
    unfold time_le in Hle. by rewrite Hanti in Hle.
Qed.

(** X5.  Whatever branch computes it, a present expiration is later on
    the wall clock than the request it is computed for. *)
Theorem expiration_after_request rd doctor_id objects e :
  valid_time (dt_time rd) ->
  Forall valid_working_hour objects ->
  set_request_expiration_datetime rd doctor_id objects = Ok (Some e) ->
  base_cmp e rd = Gt.
Proof.
  intros Hrd Hvalid. rewrite Forall_forall in Hvalid.
  rewrite set_request_expiration_datetime_eq.
  assert (∀ r, find_next_working_period_start rd
                 (filter_doctor_id doctor_id objects) = Ok (Some r) ->
               base_cmp r rd = Gt) as Hsearch.
  { intros r (z & d & wh & _ & _ & Hin & Hgt & ->)%find_next_Some.
    eapply base_cmp_Gt_trans; [|exact Hgt].
    apply datetime_add_minutes_later; [|lia].
    apply list_elem_of_filter in Hin as [_ Hin]. by apply Hvalid in Hin as [? _]. }
  destruct (working_hour_lookup _ _ _) as [wh|] eqn:Hwh; [|by auto].
  destruct (is_within_working_hours (dt_time rd) wh); [|by auto].
  destruct (is_during_break (dt_time rd) wh) eqn:Hb.
  - apply is_during_break_spec in Hb as (bs & be & _ & Hbe & _ & Hle).
    rewrite Hbe. cbn [combine mbind result_bind]. intros [= <-].
    apply (base_cmp_Gt_time_le _ (Datetime (dt_date rd) be None)); [|done..].
    apply datetime_add_minutes_later; [|lia].
    apply working_hour_lookup_elem_of, Hvalid in Hwh as [_ Hbreak]. by apply Hbreak.
  - intros [= <-]. apply datetime_add_minutes_later; [done|lia].
Qed.

(** X6.  A present expiration falls on the date of the request or on one
    of the seven days after it. *)
Theorem expiration_within_a_week rd doctor_id objects e :
  valid_time (dt_time rd) ->
  Forall valid_working_hour objects ->
  set_request_expiration_datetime rd doctor_id objects = Ok (Some e) ->
  toordinal (dt_date rd) <= toordinal (dt_date e) <= toordinal (dt_date rd) + 7.
Proof.
  intros Hrd Hvalid. rewrite Forall_forall in Hvalid.
  rewrite set_request_expiration_datetime_eq.
  assert (∀ r, find_next_working_period_start rd
                 (filter_doctor_id doctor_id objects) = Ok (Some r) ->
               toordinal (dt_date rd) <= toordinal (dt_date r)
               <= toordinal (dt_date rd) + 7) as Hsearch.
  { intros r (z & d & wh & _ & Hd & Hin & _ & ->)%find_next_Some.
    apply list_elem_of_filter in Hin as [_ Hin]. apply Hvalid in Hin as [Hst _].
    pose proof (datetime_add_minutes_date (candidate_start rd d wh z) 15 Hst
                  ltac:(lia)) as Hdate.
    change (toordinal (dt_date (candidate_start rd d wh z)))
      with (toordinal (dt_date rd) + d) in Hdate.
    lia. }
  destruct (working_hour_lookup _ _ _) as [wh|] eqn:Hwh; [|by auto].
  destruct (is_within_working_hours (dt_time rd) wh); [|by auto].
  destruct (is_during_break (dt_time rd) wh) eqn:Hb.
  - apply is_during_break_spec in Hb as (bs & be & _ & Hbe & _ & Hle).
    rewrite Hbe. cbn [combine mbind result_bind]. intros [= <-].
    apply working_hour_lookup_elem_of, Hvalid in Hwh as [_ Hbreak].
    pose proof (datetime_add_minutes_date
                  (Datetime (dt_date rd) be (@None tz)) 15 (Hbreak be Hbe)
                  ltac:(lia)) as Hdate.
    cbn [dt_date] in Hdate. lia.
  - intros [= <-].
    pose proof (datetime_add_minutes_date rd 20 Hrd ltac:(lia)) as Hdate. lia.
Qed.

(** X7.  A further record for a doctor and weekday that already have one
    earlier in the table changes no expiration: [first()] never reaches
    it. *)
Theorem expiration_ignores_later_duplicate rd doctor_id objects wh dup :
  wh ∈ objects ->
  WorkingHour.doctor_id wh = WorkingHour.doctor_id dup ->
  WorkingHour.day_of_week wh = WorkingHour.day_of_week dup ->
  set_request_expiration_datetime rd doctor_id (objects ++ [dup])
  = set_request_expiration_datetime rd doctor_id objects.
Proof.
  intros Hin Hdoc Hday. apply set_request_expiration_datetime_ext.
  intros name. unfold filter_doctor_id, filter_day_of_week, first.
  rewrite !filter_app, head_app.
  destruct (head (filter _ (filter _ objects))) eqn:Hhead; [done|].
  apply head_None in Hhead.
  destruct (filter _ (filter _ [dup])) as [|x l] eqn:Hdup; [done|].
  assert (x ∈ filter (λ wh0, WorkingHour.day_of_week wh0 = name)
                (filter (λ wh0, WorkingHour.doctor_id wh0 = doctor_id) [dup]))
    as Hx by (rewrite Hdup; by left).
  apply list_elem_of_filter in Hx as [Hxday Hx].
  apply list_elem_of_filter in Hx as [Hxdoc Hx].
  apply list_elem_of_singleton in Hx as ->.
  assert (wh ∈ filter (λ wh0, WorkingHour.day_of_week wh0 = name)
                 (filter (λ wh0, WorkingHour.doctor_id wh0 = doctor_id)
                    objects)) as Hwh.
  { apply list_elem_of_filter. split; [congruence|].
    apply list_elem_of_filter. split; [congruence|done]. }
  rewrite Hhead in Hwh. by apply elem_of_nil in Hwh.
Qed.

End expiration_bounds.

(** ** Creation, acceptance and listing *)

Lemma outside_hours_negb (t : time) (wh : WorkingHour.t) :
  time_lt t (WorkingHour.start_time wh) || time_gt t (WorkingHour.end_time wh)
  = negb (is_within_working_hours t wh).
Proof.
  destruct (is_within_working_hours t wh) eqn:Hin; cbn [negb].
  - apply is_within_working_hours_spec in Hin.
    destruct (time_lt _ _ || time_gt _ _) eqn:Hout; [|done].
    by apply outside_hours_spec in Hout.
  - apply outside_hours_spec. intros Hin'%is_within_working_hours_spec.
    congruence.
Qed.

Section more_requests.
Context `{Timezones tz}.
Implicit Types (rd now : datetime tz) (z : tz) (db : Database tz).

(** The creation service by the record of the preferred weekday. *)
Lemma create_appointment_request_service_eq patient_id doctor_id
    (preferred_datetime : datetime tz) request_datetime db :
  create_appointment_request_service patient_id doctor_id preferred_datetime
    request_datetime db =
  match working_hour_lookup doctor_id (weekday (dt_date preferred_datetime))
          (working_hours db) with
  | None => Ok (ErrorDict "Doctor is not available at that day", db)
  | Some wh =>
      if negb (is_within_working_hours (dt_time preferred_datetime) wh) then
        Ok (ErrorDict
              "It's not operation hours. Can't make appointment for this time",
            db)
      else if is_during_break (dt_time preferred_datetime) wh then
        Ok (ErrorDict
              "Doctor is having lunch break, can't make appointment for this time",
            db)
      else
        match request_datetime with
        | None => Raise AttributeError
        | Some rd =>
            exp ← set_request_expiration_datetime rd doctor_id
                    (working_hours db);
            match exp with
            | Some _ =>
                Ok (SerializerData (next_id db)
                      (AppointmentRequest.Build patient_id doctor_id
                         preferred_datetime exp default_status),
                    MkDatabase (working_hours db)
                      (<[next_id db :=
                           AppointmentRequest.Build patient_id doctor_id
                             preferred_datetime exp default_status]>
                         (appointment_requests db))
                      (next_id db + 1))
            | None =>
                Ok (ErrorDict
                      (String.append "Database error: " null_expiration_text),
                    db)
            end
        end
  end.
Proof.
  unfold create_appointment_request_service.
  destruct (weekday_mapping_total (weekday (dt_date preferred_datetime)))
    as [name Hname]; [apply weekday_bounds|].
  unfold getitem. rewrite Hname. cbn [mbind result_bind].
  rewrite (creation_filter_lookup _ _ _ _ Hname).
  destruct (working_hour_lookup _ _ _) as [wh|]; [|done].
  rewrite outside_hours_negb.
  destruct (negb _); [done|].
  fold (is_during_break (dt_time preferred_datetime) wh).
  destruct (is_during_break _ wh); [done|].
  destruct request_datetime as [rd|]; [|done].
  cbn [mbind result_bind].
  destruct (set_request_expiration_datetime rd doctor_id (working_hours db))
    as [[exp|]|]; done.
Qed.

(** X8.  With [request_datetime] left at its default [None] the creation
    service never stores a request: a request that fails one of the three
    checks is answered with the error dict, and any other raises
    [AttributeError]. *)
Theorem creation_without_request_datetime patient_id doctor_id
    (preferred_datetime : datetime tz) db :
  (creation_rejected doctor_id preferred_datetime (working_hours db)
   ∧ ∃ msg,
       create_appointment_request_service patient_id doctor_id
         preferred_datetime None db = Ok (ErrorDict msg, db))
  ∨ (¬ creation_rejected doctor_id preferred_datetime (working_hours db)
     ∧ create_appointment_request_service patient_id doctor_id
         preferred_datetime None db = Raise AttributeError).
Proof.
  rewrite create_appointment_request_service_eq. unfold creation_rejected.
  destruct (working_hour_lookup _ _ _) as [wh|]; [|left; by eauto].
  destruct (is_within_working_hours _ wh) eqn:Hin; cbn [negb].
  - apply is_within_working_hours_spec in Hin.
    destruct (is_during_break _ wh) eqn:Hb.
    + apply is_during_break_spec in Hb. left. by eauto.
    + right. split; [|done]. intros [?|Hbreak%is_during_break_spec]; [done|].
      congruence.
  - left. split; [|by eauto]. left.
    intros Hin'%is_within_working_hours_spec. congruence.
Qed.

(** X9.  Each cause of rejection has its own message, whatever the
    instant of the request (even a missing one): no record on the
    preferred weekday; a preferred time outside the closed interval of the
    hours, which is tested before the break; a preferred time within the
    hours and inside the closed interval of the break. *)
Theorem creation_error_messages patient_id doctor_id
    (preferred_datetime : datetime tz) request_datetime db :
  (working_hour_lookup doctor_id (weekday (dt_date preferred_datetime))
     (working_hours db) = None ->
   create_appointment_request_service patient_id doctor_id preferred_datetime
     request_datetime db
   = Ok (ErrorDict "Doctor is not available at that day", db))
  ∧ (∀ wh,
       working_hour_lookup doctor_id (weekday (dt_date preferred_datetime))
         (working_hours db) = Some wh ->
       (¬ in_closed_interval (WorkingHour.start_time wh)
            (WorkingHour.end_time wh) (dt_time preferred_datetime) ->
        create_appointment_request_service patient_id doctor_id
          preferred_datetime request_datetime db
        = Ok (ErrorDict
                "It's not operation hours. Can't make appointment for this time",
              db))
       ∧ (in_closed_interval (WorkingHour.start_time wh)
            (WorkingHour.end_time wh) (dt_time preferred_datetime) ->
          in_break (dt_time preferred_datetime) wh ->
          create_appointment_request_service patient_id doctor_id
            preferred_datetime request_datetime db
          = Ok (ErrorDict
                  "Doctor is having lunch break, can't make appointment for this time",
                db))).
Proof.
  rewrite create_appointment_request_service_eq. split; [by intros ->|].
  intros wh ->. split.
  - intros Hout. destruct (is_within_working_hours _ wh) eqn:Hin; [|done].
    by apply is_within_working_hours_spec in Hin.
  - intros Hin%is_within_working_hours_spec Hb%is_during_break_spec.
    by rewrite Hin, Hb.
Qed.

(** X10.  In a store whose keys are below [next_id], a successful
    creation stores the new request under a key that was free, returns
    that key, leaves every other request and the working hours as they
    were, and keeps the keys below [next_id]. *)
Theorem creation_stores_fresh_row patient_id doctor_id
    (preferred_datetime : datetime tz) request_datetime db pk row db' :
  store_wf db ->
  create_appointment_request_service patient_id doctor_id preferred_datetime
    request_datetime db = Ok (SerializerData pk row, db') ->
  appointment_requests db !! pk = None
  ∧ appointment_requests db' !! pk = Some row
  ∧ (∀ k, k ≠ pk ->
       appointment_requests db' !! k = appointment_requests db !! k)
  ∧ working_hours db' = working_hours db
  ∧ store_wf db'
  ∧ AppointmentRequest.patient_id row = patient_id
  ∧ AppointmentRequest.doctor_id row = doctor_id
  ∧ AppointmentRequest.preferred_datetime row = preferred_datetime.
Proof.
  intros Hwf. rewrite create_appointment_request_service_eq.
  destruct (working_hour_lookup _ _ _) as [wh|]; [|done].
  destruct (negb _); [done|]. destruct (is_during_break _ wh); [done|].
  destruct request_datetime as [rd|]; [|done].
  destruct (set_request_expiration_datetime rd doctor_id (working_hours db))
    as [[exp|]|]; [|done..].
  cbn [mbind result_bind]. intros [= <- <- <-].
  cbn [appointment_requests working_hours next_id].
  assert (appointment_requests db !! next_id db = None) as Hfree.
  { destruct (appointment_requests db !! next_id db) eqn:Hk; [|done].
    assert (next_id db < next_id db); [|lia]. apply Hwf. by eexists. }
  repeat split; [done| | |].
  - apply lookup_insert_eq.
  - intros k Hne. by apply lookup_insert_ne.
  - intros k. cbn [appointment_requests next_id].
    intros [r Hr]. destruct (decide (k = next_id db)) as [->|Hne]; [lia|].
    rewrite lookup_insert_ne in Hr by done.
    assert (k < next_id db); [|lia]. apply Hwf. by eexists.
Qed.

(** What a successful acceptance has done. *)
Lemma update_accepted_inv (id : Z) new_status now db id1 ar1 db1 :
  update_appointment_request_status id new_status now db
  = Ok (SerializerData id1 ar1, db1) ->
  ∃ ar exp,
    appointment_requests db !! id = Some ar
    ∧ AppointmentRequest.request_expiration_datetime ar = Some exp
    ∧ datetime_gt now exp = Ok false
    ∧ AppointmentRequest.status ar ≠ "accepted"%string
    ∧ id1 = id
    ∧ ar1 = AppointmentRequest.Build (AppointmentRequest.patient_id ar)
              (AppointmentRequest.doctor_id ar)
              (AppointmentRequest.preferred_datetime ar) (Some exp) new_status
    ∧ db1 = save_existing id ar1 db.
Proof.
  unfold update_appointment_request_status.
  destruct (appointment_requests db !! id) as [ar|] eqn:Har; [|done].
  destruct (AppointmentRequest.request_expiration_datetime ar) as [exp|] eqn:He;
    [|done].
  cbn [mbind result_bind].
  destruct (datetime_gt now exp) as [[|]|] eqn:Hgt; cbn [mbind result_bind];
    [done| |done].
  case_bool_decide as Hst; [|done].
  intros [= <- <- <-]. exists ar, exp. by rewrite He.
Qed.

(** The comparison of two datetimes raises nothing but [TypeError]. *)
Lemma datetime_gt_raises (a b : datetime tz) e :
  datetime_gt a b = Raise e -> e = TypeError.
Proof.
  unfold datetime_gt, datetime_cmp.
  destruct (tzinfo a), (tzinfo b); cbn [mbind result_bind]; try done;
    try (by intros [= <-]).
  case_decide; [done|]. by destruct (_ =? _).
Qed.

(** X11.  Acceptance is final: once an attempt has set the status to
    [accepted], no later call, whatever status and instant it is given,
    changes the store; it is answered with the expired or the
    already-accepted error, or raises [TypeError] when its instant cannot
    be compared with the expiration. *)
Theorem acceptance_is_final (id : Z) now db id1 ar1 db1 new_status now2 :
  update_appointment_request_status id "accepted" now db
  = Ok (SerializerData id1 ar1, db1) ->
  update_appointment_request_status id new_status now2 db1
  = Ok (ErrorDict "Appointment request expired", db1)
  ∨ update_appointment_request_status id new_status now2 db1
    = Ok (ErrorDict "Appointment request already accepted", db1)
  ∨ update_appointment_request_status id new_status now2 db1
    = Raise TypeError.
Proof.
  intros (ar & exp & _ & _ & _ & _ & _ & -> & ->)%update_accepted_inv.
  unfold update_appointment_request_status, save_existing.
  cbn [appointment_requests]. rewrite lookup_insert_eq.
  cbn [AppointmentRequest.request_expiration_datetime mbind result_bind
       AppointmentRequest.status].
  destruct (datetime_gt now2 exp) as [[|]|e] eqn:Hgt; cbn [mbind result_bind].
  - by left.
  - right. left. by rewrite bool_decide_false by auto.
  - right. right. by apply datetime_gt_raises in Hgt as ->.
Qed.

End more_requests.

Section acceptance_frame.
Context `{Timezones tz}.
Implicit Types (rd now : datetime tz) (z : tz) (db : Database tz).

(** What any answered call of the acceptance service has done to the
    store: nothing, or the status of the addressed row. *)
Lemma update_store_inv (id : Z) new_status now db resp db' :
  update_appointment_request_status id new_status now db = Ok (resp, db') ->
  db' = db
  ∨ ∃ ar,
      appointment_requests db !! id = Some ar
      ∧ db' = save_existing id
                (AppointmentRequest.Build (AppointmentRequest.patient_id ar)
                   (AppointmentRequest.doctor_id ar)
                   (AppointmentRequest.preferred_datetime ar)
                   (AppointmentRequest.request_expiration_datetime ar)
                   new_status) db.
Proof.
  unfold update_appointment_request_status.
  destruct (appointment_requests db !! id) as [ar|] eqn:Har;
    [|intros [= _ <-]; by left].
  destruct (AppointmentRequest.request_expiration_datetime ar) as [exp|] eqn:He;
    [|done].
  cbn [mbind result_bind].
  destruct (datetime_gt now exp) as [[|]|]; cbn [mbind result_bind];
    [intros [= _ <-]; by left| |done].
  case_bool_decide; intros [= _ <-]; [|by left].
  right. exists ar. by rewrite He.
Qed.

(** X12.  The acceptance service never adds or removes a request, never
    touches the working hours or the key counter, and changes no field of
    a stored request other than its status. *)
Theorem update_changes_status_only (id : Z) new_status now db resp db' :
  update_appointment_request_status id new_status now db = Ok (resp, db') ->
  working_hours db' = working_hours db
  ∧ next_id db' = next_id db
  ∧ dom (appointment_requests db') = dom (appointment_requests db)
  ∧ ∀ k r',
      appointment_requests db' !! k = Some r' ->
      ∃ r,
        appointment_requests db !! k = Some r
        ∧ AppointmentRequest.patient_id r' = AppointmentRequest.patient_id r
        ∧ AppointmentRequest.doctor_id r' = AppointmentRequest.doctor_id r
        ∧ AppointmentRequest.preferred_datetime r'
          = AppointmentRequest.preferred_datetime r
        ∧ AppointmentRequest.request_expiration_datetime r'
          = AppointmentRequest.request_expiration_datetime r.
Proof.
  intros [->|(ar & Har & ->)]%update_store_inv.
  - repeat split. intros k r' Hr'. by exists r'.
  - unfold save_existing. cbn [working_hours next_id appointment_requests].
    repeat split.
    + apply dom_insert_lookup_L. by eexists.
    + intros k r'. destruct (decide (k = id)) as [->|Hne].
      * rewrite lookup_insert_eq. intros [= <-]. by exists ar.
      * rewrite lookup_insert_ne by done. intros Hr'. by exists r'.
Qed.

(** X13.  Expiry is final in time: when an attempt at some instant is
    answered as expired, every attempt at a later instant of the same zone
    is answered as expired too, the expiration being in that zone. *)
Theorem expired_stays_expired (id : Z) z now now2 db ar exp s s2 :
  tzinfo now = Some z -> tzinfo now2 = Some z ->
  appointment_requests db !! id = Some ar ->
  AppointmentRequest.request_expiration_datetime ar = Some exp ->
  tzinfo exp = Some z ->
  update_appointment_request_status id s now db
  = Ok (ErrorDict "Appointment request expired", db) ->
  datetime_gt now2 now = Ok true ->
  update_appointment_request_status id s2 now2 db
  = Ok (ErrorDict "Appointment request expired", db).
Proof.
  intros Hnow Hnow2 Har Hexp Hz. unfold update_appointment_request_status.
  rewrite Har, Hexp. cbn [mbind result_bind].
  rewrite (datetime_gt_same_zone now exp z), (datetime_gt_same_zone now2 exp z),
    (datetime_gt_same_zone now2 now z) by done.
  cbn [mbind result_bind].
  destruct (base_cmp now exp) eqn:Hc1; cbn [mbind result_bind];
    [by case_bool_decide|by case_bool_decide|].
  intros _ Hlater.
  assert (base_cmp now2 now = Gt) as Hc2
    by (by destruct (base_cmp now2 now)).
  by rewrite (base_cmp_Gt_trans now2 now exp Hc2 Hc1).
Qed.

(** X14.  Once a request is accepted it leaves the list of open requests
    of every doctor, and nothing else in those lists changes. *)
Theorem accepted_request_leaves_list (id : Z) now db id1 ar1 db1 doctor_id :
  update_appointment_request_status id "accepted" now db
  = Ok (SerializerData id1 ar1, db1) ->
  get_appointment_request_list doctor_id db1
  = delete id (get_appointment_request_list doctor_id db).
Proof.
  intros (ar & exp & _ & _ & _ & _ & _ & -> & ->)%update_accepted_inv.
  unfold get_appointment_request_list, save_existing.
  cbn [appointment_requests].
  rewrite map_filter_insert_False, map_filter_delete; [done|].
  cbn. by intros [_ ?].
Qed.

End acceptance_frame.

(** ** The outcomes of a creation *)

Section creation_results.
Context `{Timezones tz}.
Implicit Types (rd : datetime tz) (z : tz) (db : Database tz).



End creation_results.

(** X15.  A request that passes the three checks but is made at a naive
    instant outside the working hours of its day makes the creation
    service raise [TypeError]: the search compares its aware candidate
    with the naive instant, and nothing is stored. *)
Theorem creation_naive_request_raises `{Timezones tz} patient_id doctor_id
    (preferred_datetime rd : datetime tz) (db : Database tz) :
  ¬ creation_rejected doctor_id preferred_datetime (working_hours db) ->
  tzinfo rd = None ->
  (∀ wh, working_hour_lookup doctor_id (weekday (dt_date rd))
           (working_hours db) = Some wh ->
         ¬ in_closed_interval (WorkingHour.start_time wh)
             (WorkingHour.end_time wh) (dt_time rd)) ->
  create_appointment_request_service patient_id doctor_id preferred_datetime
    (Some rd) db = Raise TypeError.
Proof.
  intros Hok Hz Hout. rewrite create_appointment_request_service_eq.
  unfold creation_rejected in Hok.
  destruct (working_hour_lookup doctor_id _ (working_hours db)) as [wh|] eqn:Hwh;
    [|done].
  destruct (is_within_working_hours _ wh) eqn:Hin; cbn [negb]; revgoals.
  { destruct Hok. left. intros Hin'%is_within_working_hours_spec. congruence. }
  destruct (is_during_break _ wh) eqn:Hb.
  { destruct Hok. right. by apply is_during_break_spec. }
  rewrite outside_hours_expiration by done.
  rewrite (find_next_naive_reference_raises_aux rd _ wh); [done..|].
  by apply schedule_lookup_elem_of in Hwh.
Qed.

(** ** The further properties at concrete inputs *)

Lemma naive_reference_monday_morning :
  find_next_working_period_start (naive_at monday (hm 8 0)) [monday_plain]
  = Raise TypeError.
Proof.
  apply (find_next_naive_reference_raises (naive_at monday (hm 8 0))
           [monday_plain] monday_plain).
  - reflexivity.
  - apply list_elem_of_here.
Defined.

Lemma scenario_C_start_of_own_weekday :
  ∃ c wh,
    at_kst wednesday (hm 9 15) = datetime_add c (timedelta_minutes 15)
    ∧ tzinfo c = Some KST
    ∧ toordinal (dt_date (at_kst monday (hm 18 0))) <= toordinal (dt_date c)
      <= toordinal (dt_date (at_kst monday (hm 18 0))) + 6
    ∧ schedule_lookup (weekday (dt_date c)) [monday_plain; wednesday_plain]
      = Some wh
    ∧ dt_time c = WorkingHour.start_time wh.
Proof.
  exact (find_next_start_of_own_weekday (at_kst monday (hm 18 0)) KST
           [monday_plain; wednesday_plain] (at_kst wednesday (hm 9 15))
           eq_refl eq_refl).
Defined.

Lemma two_weekdays_present :
  ∃ r,
    find_next_working_period_start (at_kst monday (hm 18 0))
      [monday_plain; wednesday_plain] = Ok (Some r).
Proof.
  apply (find_next_present_two_weekdays (at_kst monday (hm 18 0)) KST
           [monday_plain; wednesday_plain] monday_plain wednesday_plain).
  - reflexivity.
  - apply list_elem_of_here.
  - apply list_elem_of_further, list_elem_of_here.
  - discriminate.
Defined.

Lemma before_hours_monday :
  set_request_expiration_datetime (at_kst monday (hm 8 0)) 1 [monday_plain]
  = Ok (Some (at_kst monday (hm 9 15))).
Proof.
  apply (before_hours_expiration (at_kst monday (hm 8 0)) KST 1
           [monday_plain] monday_plain); reflexivity.
Defined.

Lemma in_break_expiration_after_request :
  base_cmp (Datetime monday (hm 13 15) None) (at_kst monday (hm 12 30)) = Gt.
Proof.
  apply (expiration_after_request (at_kst monday (hm 12 30)) 1
           [monday_with_break]).
  - unfold valid_time. cbn. lia.
  - apply Forall_cons. split; [|apply Forall_nil_2]. split.
    + unfold valid_time. cbn. lia.
    + intros be [= <-]. unfold valid_time. cbn. lia.
  - reflexivity.
Defined.

(** A record that starts at 23:50 on Sundays, asked on Monday at 00:05:
    the expiration falls on the seventh day after. *)
Lemma sunday_night_within_a_week :
  toordinal (dt_date (at_kst monday (hm 0 5)))
  <= toordinal (dt_date (at_kst next_monday (hm 0 5)))
  <= toordinal (dt_date (at_kst monday (hm 0 5))) + 7.
Proof.
  apply (expiration_within_a_week (at_kst monday (hm 0 5)) 1 [sunday_night]).
  - unfold valid_time. cbn. lia.
  - apply Forall_cons. split; [|apply Forall_nil_2]. split.
    + unfold valid_time. cbn. lia.
    + intros be Hbe. discriminate Hbe.
  - reflexivity.
Defined.

(** A second Monday record, from 19:00 on, does not move the expiration
    of a request made on Monday at 18:00. *)
Lemma later_monday_record_ignored :
  set_request_expiration_datetime (at_kst monday (hm 18 0)) 1
    ([monday_plain] ++ [monday_late])
  = set_request_expiration_datetime (at_kst monday (hm 18 0)) 1
      [monday_plain].
Proof.
  apply (expiration_ignores_later_duplicate (at_kst monday (hm 18 0)) 1
           [monday_plain] monday_plain monday_late).
  - apply list_elem_of_here.
  - reflexivity.
  - reflexivity.
Defined.

Lemma creation_in_break_message :
  create_appointment_request_service 7 1 (at_kst next_monday (hm 12 30))
    None (store_of [monday_with_break])
  = Ok (ErrorDict
          "Doctor is having lunch break, can't make appointment for this time",
        store_of [monday_with_break]).
Proof.
  destruct (creation_error_messages 7 1 (at_kst next_monday (hm 12 30)) None
              (store_of [monday_with_break])) as (_ & Hfound).
  destruct (Hfound monday_with_break eq_refl) as (_ & Hbreak).
  apply Hbreak.
  - split; reflexivity.
  - exists (hm 12 0), (hm 13 0). repeat split; reflexivity.
Defined.

Lemma creation_into_empty_store :
  appointment_requests (store_of [monday_plain]) !! 1 = None
  ∧ appointment_requests (store_with pending_request) !! 1
    = Some pending_request
  ∧ (∀ k, k ≠ 1 ->
       appointment_requests (store_with pending_request) !! k
       = appointment_requests (store_of [monday_plain]) !! k)
  ∧ working_hours (store_with pending_request)
    = working_hours (store_of [monday_plain])
  ∧ store_wf (store_with pending_request)
  ∧ AppointmentRequest.patient_id pending_request = 7
  ∧ AppointmentRequest.doctor_id pending_request = 1
  ∧ AppointmentRequest.preferred_datetime pending_request
    = at_kst next_monday (hm 10 0).
Proof.
  apply (creation_stores_fresh_row 7 1 (at_kst next_monday (hm 10 0))
           (Some (at_kst monday (hm 10 0))) (store_of [monday_plain])).
  - intros k [r Hr]. cbn in Hr. rewrite lookup_empty in Hr. discriminate Hr.
  - reflexivity.
Defined.

Lemma accepted_cannot_be_reset :
  update_appointment_request_status 1 "pending" (at_kst monday (hm 10 15))
    (store_with accepted_request)
  = Ok (ErrorDict "Appointment request expired", store_with accepted_request)
  ∨ update_appointment_request_status 1 "pending" (at_kst monday (hm 10 15))
      (store_with accepted_request)
    = Ok (ErrorDict "Appointment request already accepted",
          store_with accepted_request)
  ∨ update_appointment_request_status 1 "pending" (at_kst monday (hm 10 15))
      (store_with accepted_request)
    = Raise TypeError.
Proof.
  apply (acceptance_is_final 1 (at_kst monday (hm 10 10))
           (store_with pending_request) 1 accepted_request
           (store_with accepted_request) "pending"
           (at_kst monday (hm 10 15))).
  reflexivity.
Defined.

Lemma acceptance_changes_status_only :
  working_hours (store_with accepted_request)
  = working_hours (store_with pending_request)
  ∧ next_id (store_with accepted_request) = next_id (store_with pending_request)
  ∧ dom (appointment_requests (store_with accepted_request))
    = dom (appointment_requests (store_with pending_request))
  ∧ ∀ k r',
      appointment_requests (store_with accepted_request) !! k = Some r' ->
      ∃ r,
        appointment_requests (store_with pending_request) !! k = Some r
        ∧ AppointmentRequest.patient_id r' = AppointmentRequest.patient_id r
        ∧ AppointmentRequest.doctor_id r' = AppointmentRequest.doctor_id r
        ∧ AppointmentRequest.preferred_datetime r'
          = AppointmentRequest.preferred_datetime r
        ∧ AppointmentRequest.request_expiration_datetime r'
          = AppointmentRequest.request_expiration_datetime r.
Proof.
  apply (update_changes_status_only 1 "accepted" (at_kst monday (hm 10 10))
           (store_with pending_request)
           (SerializerData 1 accepted_request)
           (store_with accepted_request)).
  reflexivity.
Defined.

Lemma expired_at_eleven :
  update_appointment_request_status 1 "accepted" (at_kst monday (hm 11 0))
    (store_with pending_request)
  = Ok (ErrorDict "Appointment request expired", store_with pending_request).
Proof.
  apply (expired_stays_expired 1 KST (at_kst monday (hm 10 21))
           (at_kst monday (hm 11 0)) (store_with pending_request)
           pending_request (at_kst monday (hm 10 20)) "accepted" "accepted");
    reflexivity.
Defined.

Lemma accepted_request_not_listed :
  get_appointment_request_list 1 (store_with accepted_request)
  = delete 1 (get_appointment_request_list 1 (store_with pending_request)).
Proof.
  apply (accepted_request_leaves_list 1 (at_kst monday (hm 10 10))
           (store_with pending_request) 1 accepted_request
           (store_with accepted_request) 1).
  reflexivity.
Defined.

(** The list of doctor 1 holds the pending request and is empty once it is
    accepted; the list of another doctor is empty. *)
Lemma list_of_open_requests :
  get_appointment_request_list 1 (store_with pending_request)
  = <[1 := pending_request]> ∅
  ∧ get_appointment_request_list 1 (store_with accepted_request) = ∅
  ∧ get_appointment_request_list 2 (store_with pending_request) = ∅.
Proof. repeat split; apply map_eq; intros k; vm_compute; reflexivity. Qed.

Lemma creation_at_naive_instant :
  create_appointment_request_service 7 1 (at_kst next_monday (hm 10 0))
    (Some (naive_at monday (hm 18 0))) (store_of [monday_plain])
  = Raise TypeError.
Proof.
  apply (creation_naive_request_raises 7 1 (at_kst next_monday (hm 10 0))
           (naive_at monday (hm 18 0)) (store_of [monday_plain])).
  - intros [Hout|(bs & be & Hbs & _)].
    + apply Hout. split; reflexivity.
    + discriminate Hbs.
  - reflexivity.
  - intros wh [= <-] [_ Hle]. discriminate Hle.
Defined.

Lemma monday_only_absent_iff :
  find_next_working_period_start (at_kst monday (hm 18 0)) [monday_plain]
  = Ok None ↔
  (∀ d, 1 <= d < 7 ->
        schedule_lookup ((weekday (dt_date (at_kst monday (hm 18 0))) + d)
                           mod 7) [monday_plain] = None)
  ∧ (∀ wh, schedule_lookup (weekday (dt_date (at_kst monday (hm 18 0))))
             [monday_plain] = Some wh ->
           time_cmp (WorkingHour.start_time wh)
             (dt_time (at_kst monday (hm 18 0))) ≠ Gt).
Proof.
  exact (find_next_absent_iff (at_kst monday (hm 18 0)) KST [monday_plain]
           eq_refl).
Defined.

Lemma no_record_of_doctor_2 :
  set_request_expiration_datetime (naive_at monday (hm 10 0)) 2
    [monday_plain; wednesday_plain] = Ok None.
Proof.
  apply (expiration_absent_without_records (naive_at monday (hm 10 0)) 2
           [monday_plain; wednesday_plain]).
  reflexivity.
Defined.



